(** * cogs/meta.py: the Meta cog of the bot

    A shallow embedding of the [Prefix] and [FetchedUser] converters, the
    cog error handler, [charinfo], the [prefix] command group and the channel
    secrecy count of [serverinfo].

    Python values are modelled as follows.
    - [str] is a sequence of Unicode code points: [list N].
    - [int] is unbounded: [Z] for permission bitmasks (with [~] as
      [Z.lnot]), [N] for identifiers and counters that are printed.
    - a [list] that is mutated in place is either the object owned by the
      prefix store or a local copy ([ListRef]).
    - [Counter] is a finite map with default [0].
    - a coroutine is a function on the [World] (the stored prefix list and
      the log of the calls the handler made to the outside) that returns a
      value or raises. A call of [ctx.send] is logged and returns: what the
      platform does with the message is not part of the model. *)

From Stdlib Require Import ZArith Ascii.
From Stdlib Require DecimalN.
From stdpp Require Import base list numbers strings gmap.

(** ** Python strings *)

Module Py.

Definition str := list N.

(** A source literal, character by character. *)
Definition lit (s : string) : str :=
  (λ a, N_of_ascii a) <$> String.list_ascii_of_string s.

Definition NEWLINE : N := 10.
(** [\N{EM DASH}] *)
Definition EM_DASH : N := 8212.

(** [sep.join(parts)] *)
Fixpoint join (sep : str) (parts : list str) : str :=
  match parts with
  | [] => []
  | [p] => p
  | p :: rest => p ++ sep ++ join sep rest
  end.

(** [s.startswith(p)] *)
Fixpoint startswith (s p : str) {struct p} : bool :=
  match p, s with
  | [], _ => true
  | _ :: _, [] => false
  | c :: p', d :: s' => bool_decide (c = d) && startswith s' p'
  end.

(** [s.startswith((p1, p2, ...))] *)
Definition startswith_any (s : str) (ps : list str) : bool :=
  existsb (startswith s) ps.

(** [needle in s] *)
Fixpoint contains (s needle : str) : bool :=
  startswith s needle ||
  match s with
  | [] => false
  | _ :: s' => contains s' needle
  end.

(** [s.split(sep)] for a separator of one character. *)
Fixpoint split_on (sep : N) (s : str) : list str :=
  match s with
  | [] => [[]]
  | c :: s' =>
      if decide (c = sep) then [] :: split_on sep s'
      else match split_on sep s' with
           | [] => [[c]]
           | p :: ps => (c :: p) :: ps
           end
  end.

(** [str(n)] and [f"{n}"] for a non-negative [int]. *)
Fixpoint uint_digits (d : Decimal.uint) : str :=
  match d with
  | Decimal.Nil => []
  | Decimal.D0 d => 48%N :: uint_digits d
  | Decimal.D1 d => 49%N :: uint_digits d
  | Decimal.D2 d => 50%N :: uint_digits d
  | Decimal.D3 d => 51%N :: uint_digits d
  | Decimal.D4 d => 52%N :: uint_digits d
  | Decimal.D5 d => 53%N :: uint_digits d
  | Decimal.D6 d => 54%N :: uint_digits d
  | Decimal.D7 d => 55%N :: uint_digits d
  | Decimal.D8 d => 56%N :: uint_digits d
  | Decimal.D9 d => 57%N :: uint_digits d
  end.

Definition str_of_int (n : N) : str := uint_digits (N.to_uint n).

(** [f"{n:x}"]: lower-case hexadecimal without prefix. *)
Fixpoint hex_digits (d : Hexadecimal.uint) : str :=
  match d with
  | Hexadecimal.Nil => []
  | Hexadecimal.D0 d => 48%N :: hex_digits d
  | Hexadecimal.D1 d => 49%N :: hex_digits d
  | Hexadecimal.D2 d => 50%N :: hex_digits d
  | Hexadecimal.D3 d => 51%N :: hex_digits d
  | Hexadecimal.D4 d => 52%N :: hex_digits d
  | Hexadecimal.D5 d => 53%N :: hex_digits d
  | Hexadecimal.D6 d => 54%N :: hex_digits d
  | Hexadecimal.D7 d => 55%N :: hex_digits d
  | Hexadecimal.D8 d => 56%N :: hex_digits d
  | Hexadecimal.D9 d => 57%N :: hex_digits d
  | Hexadecimal.Da d => 97%N :: hex_digits d
  | Hexadecimal.Db d => 98%N :: hex_digits d
  | Hexadecimal.Dc d => 99%N :: hex_digits d
  | Hexadecimal.Dd d => 100%N :: hex_digits d
  | Hexadecimal.De d => 101%N :: hex_digits d
  | Hexadecimal.Df d => 102%N :: hex_digits d
  end.

Definition format_x (n : N) : str := hex_digits (N.to_hex_uint n).

(** [f"{s:>0w}"] on a string [s]: fill character [0], right aligned, width
    [w]; a string that is already [w] long or longer is left as it is. *)
Definition format_rjust0 (w : nat) (s : str) : str :=
  replicate (w - length s) 48%N ++ s.

(** [enumerate(l, start)] *)
Fixpoint enumerate {A} (start : N) (l : list A) : list (N * A) :=
  match l with
  | [] => []
  | x :: l' => (start, x) :: enumerate (N.succ start) l'
  end.

End Py.

(** ** Exceptions *)

Inductive ExnClass :=
  | Exception
  | IndexError
  | ValueError
  | HTTPException
  | NotFound
  | CommandError
  | UserInputError
  | BadArgument
  | BadUnionArgument
  | TooManyArguments
  | MissingRequiredArgument
  | CheckFailure
  | ConversionError
  | CommandInvokeError.

Global Instance ExnClass_eq_dec : EqDecision ExnClass.
Proof. solve_decision. Defined.

(** The class and its bases, most derived first. *)
Definition mro (c : ExnClass) : list ExnClass :=
  match c with
  | Exception => [Exception]
  | IndexError => [IndexError; Exception]
  | ValueError => [ValueError; Exception]
  | HTTPException => [HTTPException; Exception]
  | NotFound => [NotFound; HTTPException; Exception]
  | CommandError => [CommandError; Exception]
  | UserInputError => [UserInputError; CommandError; Exception]
  | BadArgument => [BadArgument; UserInputError; CommandError; Exception]
  | BadUnionArgument => [BadUnionArgument; UserInputError; CommandError; Exception]
  | TooManyArguments => [TooManyArguments; UserInputError; CommandError; Exception]
  | MissingRequiredArgument =>
      [MissingRequiredArgument; UserInputError; CommandError; Exception]
  | CheckFailure => [CheckFailure; CommandError; Exception]
  | ConversionError => [ConversionError; CommandError; Exception]
  | CommandInvokeError => [CommandInvokeError; CommandError; Exception]
  end.

(** An exception object: its class and [str(e)]. *)
Record Exn := mkExn { exn_class : ExnClass; exn_text : Py.str }.

Definition isinstance (e : Exn) (c : ExnClass) : bool :=
  bool_decide (c ∈ mro (exn_class e)).

(** ** What a handler does to the outside *)

Inductive Colour := blurple.

(** [discord.Embed], with the attributes the handlers below set. *)
Record Embed := mkEmbed {
  title : option Py.str;
  colour : option Colour;
  footer_text : option Py.str;
  description : option Py.str
}.

Inductive Event :=
  | Send (content : Py.str)                   (* ctx.send(content) *)
  | SendEmbed (e : Embed)                     (* ctx.send(embed=e) *)
  | SetGuildPrefixes (prefixes : list Py.str) (* bot.set_guild_prefixes(guild, prefixes) *)
  | FetchUser (argument : Py.str).            (* bot.fetch_user(argument) *)

(** The list object the bot keeps for the guild, and the calls made so far
    (oldest first). *)
Record World := mkWorld { stored : list Py.str; log : list Event }.

Inductive Result (A : Type) :=
  | Return (a : A)
  | Raise (e : Exn).
Arguments Return {A} a.
Arguments Raise {A} e.

Definition Coro (A : Type) : Type := World → Result A * World.

Definition ret {A} (a : A) : Coro A := λ w, (Return a, w).
Definition raise {A} (e : Exn) : Coro A := λ w, (Raise e, w).
Definition bind {A B} (m : Coro A) (k : A → Coro B) : Coro B :=
  λ w, match m w with
       | (Return a, w') => k a w'
       | (Raise e, w') => (Raise e, w')
       end.

Declare Scope coro_scope.
Delimit Scope coro_scope with coro.
Notation "'let*' x ':=' m 'in' k" := (bind m (λ x, k))
  (at level 10, x name, m at level 100, k at level 200) : coro_scope.
Notation "m ;; k" := (bind m (λ _, k))
  (at level 100, k at level 200, right associativity) : coro_scope.
Local Open Scope coro_scope.

(** [try: body / except cls as e: handler(e) / else: orelse(a)]. An
    exception of another class, and one raised by [handler] or [orelse],
    propagates. *)
Definition try_except_else {A B} (body : Coro A) (cls : ExnClass)
    (handler : Exn → Coro B) (orelse : A → Coro B) : Coro B :=
  λ w, match body w with
       | (Return a, w') => orelse a w'
       | (Raise e, w') => if isinstance e cls then handler e w' else (Raise e, w')
       end.

Definition emit (ev : Event) : Coro unit :=
  λ w, (Return tt, mkWorld (stored w) (log w ++ [ev])).

(** ** Lists mutated in place *)

(** What a variable bound to a list of prefixes refers to. *)
Inductive ListRef :=
  | StoreObject                    (* the list object kept by the bot *)
  | LocalList (l : list Py.str).   (* a list no one else holds *)

(** The list [r] denotes when [s] is stored. *)
Definition ref_list (r : ListRef) (s : list Py.str) : list Py.str :=
  match r with StoreObject => s | LocalList l => l end.

Definition list_value (r : ListRef) : Coro (list Py.str) :=
  λ w, (Return (ref_list r (stored w)), w).

Definition list_assign (r : ListRef) (l : list Py.str) : Coro ListRef :=
  λ w, match r with
       | StoreObject => (Return StoreObject, mkWorld l (log w))
       | LocalList _ => (Return (LocalList l), w)
       end.

(** [r.append(x)] *)
Definition list_append (r : ListRef) (x : Py.str) : Coro ListRef :=
  let* l := list_value r in list_assign r (l ++ [x]).

(** First occurrence of [x] dropped; [None] when there is none. *)
Fixpoint remove_first (x : Py.str) (l : list Py.str) : option (list Py.str) :=
  match l with
  | [] => None
  | y :: l' => if decide (y = x) then Some l' else cons y <$> remove_first x l'
  end.

(** [r.remove(x)] *)
Definition list_remove (r : ListRef) (x : Py.str) : Coro ListRef :=
  let* l := list_value r in
  match remove_first x l with
  | Some l' => list_assign r l'
  | None => raise (mkExn ValueError (Py.lit "list.remove(x): x not in list"))
  end.

(** [del r[i]] for [i >= 0] *)
Definition list_del (r : ListRef) (i : nat) : Coro ListRef :=
  let* l := list_value r in
  if decide (i < length l) then list_assign r (delete i l)
  else raise (mkExn IndexError (Py.lit "list assignment index out of range")).

(** ** The collaborators *)

Record User := mkUser { user_ident : N; user_name : Py.str }.

(** The bot object, as far as the handlers use it.
    - [get_guild_prefixes] and [get_raw_guild_prefixes] hand out a list: the
      stored object itself or a list built for the call, as a function of
      what is stored.
    - [set_guild_prefixes], given what is stored and its argument, raises or
      leaves a new stored list.
    - [fetch_user] returns a user or raises. *)
Record Bot := mkBot {
  bot_user_id : N;
  guild_prefixes_of : list Py.str → ListRef;
  raw_guild_prefixes_of : list Py.str → ListRef;
  set_guild_prefixes_of : list Py.str → list Py.str → Exn + list Py.str;
  fetch_user_of : Py.str → Exn + User
}.

(** The invocation context: the bot, [ctx.tick] and whether the author
    passes [checks.is_mod()]. *)
Record Context := mkContext {
  bot : Bot;
  tick : bool → Py.str;
  author_is_mod : bool
}.

(** The Unicode character database behind [unicodedata.name] and
    [str.isdigit]. *)
Record Unicode := mkUnicode {
  unicode_name : N → option Py.str;
  unicode_isdigit : N → bool
}.

(** The command framework, where the handlers depend on it: the
    [discord.Member] converter, the error raised for a [Union] parameter
    when each of its converters has failed (given their errors in order),
    and the text of the [ConversionError] made from another exception. *)
Record Framework := mkFramework {
  member_convert : Py.str → Exn + User;
  union_failed : list Exn → Exn;
  conversion_error_text : Exn → Py.str
}.

(** The errors the framework raises itself, with its texts; [name] is the
    qualified name of the command, [param] the name of the parameter. *)
Definition check_failure (name : Py.str) : Exn :=
  mkExn CheckFailure
    (Py.lit "The check functions for command " ++ name ++ Py.lit " failed.").

Definition too_many_arguments (name : Py.str) : Exn :=
  mkExn TooManyArguments (Py.lit "Too many arguments passed to " ++ name).

Definition missing_required_argument (param : Py.str) : Exn :=
  mkExn MissingRequiredArgument
    (param ++ Py.lit " is a required argument that is missing.").

Section Cog.

Context (ucd : Unicode) (fw : Framework) (ctx : Context).

Definition ctx_send (content : Py.str) : Coro unit := emit (Send content).
Definition ctx_send_embed (e : Embed) : Coro unit := emit (SendEmbed e).

Definition get_guild_prefixes : Coro ListRef :=
  λ w, (Return (guild_prefixes_of (bot ctx) (stored w)), w).

Definition get_raw_guild_prefixes : Coro ListRef :=
  λ w, (Return (raw_guild_prefixes_of (bot ctx) (stored w)), w).

Definition set_guild_prefixes (prefixes : ListRef) : Coro unit :=
  let* l := list_value prefixes in
  emit (SetGuildPrefixes l) ;;
  λ w, match set_guild_prefixes_of (bot ctx) (stored w) l with
       | inl e => (Raise e, w)
       | inr s => (Return tt, mkWorld s (log w))
       end.

Definition fetch_user (argument : Py.str) : Coro User :=
  emit (FetchUser argument) ;;
  match fetch_user_of (bot ctx) argument with
  | inl e => raise e
  | inr u => ret u
  end.

(** The lists the two getters return in [w]. *)
Definition shown_list (w : World) : list Py.str :=
  ref_list (guild_prefixes_of (bot ctx) (stored w)) (stored w).
Definition raw_list (w : World) : list Py.str :=
  ref_list (raw_guild_prefixes_of (bot ctx) (stored w)) (stored w).

(** [str.isdigit] *)
Definition isdigit (s : Py.str) : bool :=
  bool_decide (s ≠ []) && forallb (unicode_isdigit ucd) s.

(** *** class Prefix *)

Definition mention (user_id : N) : Py.str :=
  Py.lit "<@" ++ Py.str_of_int user_id ++ Py.lit ">".
Definition mention_nick (user_id : N) : Py.str :=
  Py.lit "<@!" ++ Py.str_of_int user_id ++ Py.lit ">".

Definition Prefix_convert (argument : Py.str) : Coro Py.str :=
  let user_id := bot_user_id (bot ctx) in
  if Py.startswith_any argument [mention user_id; mention_nick user_id]
  then raise (mkExn BadArgument (Py.lit "That is a reserved prefix already in use."))
  else ret argument.

(** *** class FetchedUser *)

Definition FetchedUser_convert (argument : Py.str) : Coro User :=
  if negb (isdigit argument)
  then raise (mkExn BadArgument (Py.lit "Not a valid user ID."))
  else
    λ w, match fetch_user argument w with
         | (Return u, w') => (Return u, w')
         | (Raise e, w') =>
             if isinstance e NotFound
             then (Raise (mkExn BadArgument (Py.lit "User not found.")), w')
             else if isinstance e HTTPException
             then (Raise (mkExn BadArgument
                            (Py.lit "An error occurred while fetching the user.")), w')
             else (Raise e, w')
         end.

(** *** class Meta *)

Definition cog_command_error (error : Exn) : Coro unit :=
  if isinstance error BadArgument then ctx_send (exn_text error) else ret tt.

Definition to_string (c : N) : Py.str :=
  let digit := Py.format_x c in
  let name := default (Py.lit "Name not found.") (unicode_name ucd c) in
  Py.lit "`\U" ++ Py.format_rjust0 8 digit ++ Py.lit "`: " ++ name ++
  Py.lit " - " ++ [c] ++ Py.lit " " ++ [Py.EM_DASH] ++
  Py.lit " <http://www.fileformat.info/info/unicode/char/" ++ digit ++ Py.lit ">".

Definition charinfo (characters : Py.str) : Coro unit :=
  let msg := Py.join [Py.NEWLINE] (to_string <$> characters) in
  ctx_send msg.

Definition prefix : Coro unit :=
  let* prefixes := get_guild_prefixes in
  let* prefixes := list_del prefixes 1 in
  let e := mkEmbed (Some (Py.lit "Prefixes")) (Some blurple) None None in
  let* l := list_value prefixes in
  let e := mkEmbed (title e) (colour e)
             (Some (Py.str_of_int (N.of_nat (length l)) ++ Py.lit " prefixes"))
             (description e) in
  let e := mkEmbed (title e) (colour e) (footer_text e)
             (Some (Py.join [Py.NEWLINE]
                      ((λ '(index, elem), Py.str_of_int index ++ Py.lit ". " ++ elem)
                         <$> Py.enumerate 1 l))) in
  ctx_send_embed e.

Definition prefix_add (prefix : Py.str) : Coro unit :=
  let* current_prefixes := get_raw_guild_prefixes in
  let* current_prefixes := list_append current_prefixes prefix in
  try_except_else (set_guild_prefixes current_prefixes) Exception
    (λ e, ctx_send (tick ctx false ++ Py.lit " " ++ exn_text e))
    (λ _, ctx_send (tick ctx true)).

Definition prefix_add_error (error : Exn) : Coro unit :=
  if isinstance error TooManyArguments
  then ctx_send (Py.lit
    "You've given too many prefixes. Either quote it or only do it one by one.")
  else ret tt.

Definition prefix_remove (prefix : Py.str) : Coro unit :=
  let* current_prefixes := get_raw_guild_prefixes in
  try_except_else (list_remove current_prefixes prefix) ValueError
    (λ _, ctx_send (Py.lit "I do not have this prefix registered."))
    (λ current_prefixes,
       try_except_else (set_guild_prefixes current_prefixes) Exception
         (λ e, ctx_send (tick ctx false ++ Py.lit " " ++ exn_text e))
         (λ _, ctx_send (tick ctx true))).

Definition prefix_clear : Coro unit :=
  set_guild_prefixes (LocalList []) ;;
  ctx_send (tick ctx true).

(** *** The commands as the framework runs them

    The framework evaluates the checks, converts the arguments, and calls
    the callback; an exception of the callback that is no [CommandError] is
    wrapped in [CommandInvokeError]. A failure at any of these steps goes to
    the command's own error handler if it has one, then to
    [cog_command_error], and is then passed on to the bot-wide handler,
    which is not part of the cog: [invoke] returns it as raised. *)

Definition class_name (c : ExnClass) : Py.str :=
  match c with
  | Exception => Py.lit "Exception"
  | IndexError => Py.lit "IndexError"
  | ValueError => Py.lit "ValueError"
  | HTTPException => Py.lit "HTTPException"
  | NotFound => Py.lit "NotFound"
  | CommandError => Py.lit "CommandError"
  | UserInputError => Py.lit "UserInputError"
  | BadArgument => Py.lit "BadArgument"
  | BadUnionArgument => Py.lit "BadUnionArgument"
  | TooManyArguments => Py.lit "TooManyArguments"
  | MissingRequiredArgument => Py.lit "MissingRequiredArgument"
  | CheckFailure => Py.lit "CheckFailure"
  | ConversionError => Py.lit "ConversionError"
  | CommandInvokeError => Py.lit "CommandInvokeError"
  end.

Definition wrap_callback {A} (callback : Coro A) : Coro A :=
  λ w, match callback w with
       | (Return a, w') => (Return a, w')
       | (Raise e, w') =>
           if isinstance e CommandError then (Raise e, w')
           else (Raise (mkExn CommandInvokeError
                          (Py.lit "Command raised an exception: " ++
                           class_name (exn_class e) ++ Py.lit ": " ++ exn_text e)), w')
       end.

(** A converter as the framework calls it: an exception that is no
    [CommandError] becomes a [ConversionError]. *)
Definition actual_conversion {A} (convert : Coro A) : Coro A :=
  λ w, match convert w with
       | (Return a, w') => (Return a, w')
       | (Raise e, w') =>
           if isinstance e CommandError then (Raise e, w')
           else (Raise (mkExn ConversionError (conversion_error_text fw e)), w')
       end.

Definition dispatch_error (on_error : option (Exn → Coro unit)) (error : Exn)
    : Coro unit :=
  match on_error with Some h => h error | None => ret tt end ;;
  cog_command_error error.

Definition invoke {A} (name : Py.str) (check : bool) (parse : Coro A)
    (callback : A → Coro unit) (on_error : option (Exn → Coro unit)) : Coro unit :=
  λ w, match (if check
              then (let* a := parse in wrap_callback (callback a))
              else raise (check_failure name)) w with
       | (Return _, w') => (Return tt, w')
       | (Raise e, w') =>
           match dispatch_error on_error e w' with
           | (Return _, w'') => (Raise e, w'')
           | (Raise e', w'') => (Raise e', w'')
           end
       end.

(** One positional parameter and [ignore_extra=False]: the words of the
    message after the command name. *)
Definition parse_single {A} (name param : Py.str) (convert : Py.str → Coro A)
    (words : list Py.str) : Coro A :=
  match words with
  | [] => raise (missing_required_argument param)
  | argument :: rest =>
      let* a := actual_conversion (convert argument) in
      match rest with
      | [] => ret a
      | _ :: _ => raise (too_many_arguments name)
      end
  end.

(** [Union[discord.Member, FetchedUser]]: the converters in turn, the first
    success wins. *)
Definition convert_member_or_fetched (argument : Py.str) : Coro User :=
  λ w, match actual_conversion
               (match member_convert fw argument with
                | inl e => raise e
                | inr u => ret u
                end) w with
       | (Return u, w1) => (Return u, w1)
       | (Raise e1, w1) =>
           match actual_conversion (FetchedUser_convert argument) w1 with
           | (Return u, w2) => (Return u, w2)
           | (Raise e2, w2) => (Raise (union_failed fw [e1; e2]), w2)
           end
       end.

(** [*, user: Union[discord.Member, FetchedUser] = None]: the rest of the
    message, [None] when there is none. *)
Definition parse_user (argument : option Py.str) : Coro (option User) :=
  match argument with
  | None => ret None
  | Some a => let* u := convert_member_or_fetched a in ret (Some u)
  end.

Definition invoke_prefix : Coro unit :=
  invoke (Py.lit "prefix") true (ret tt) (λ _, prefix) None.

Definition invoke_prefix_add (words : list Py.str) : Coro unit :=
  invoke (Py.lit "prefix add") (author_is_mod ctx)
    (parse_single (Py.lit "prefix add") (Py.lit "prefix") Prefix_convert words)
    prefix_add (Some prefix_add_error).

Definition invoke_prefix_remove (words : list Py.str) : Coro unit :=
  invoke (Py.lit "prefix remove") (author_is_mod ctx)
    (parse_single (Py.lit "prefix remove") (Py.lit "prefix") Prefix_convert words)
    prefix_remove None.

Definition invoke_prefix_clear : Coro unit :=
  invoke (Py.lit "prefix clear") (author_is_mod ctx) (ret tt) (λ _, prefix_clear) None.

(** [avatar] and [info] take their user the same way; what the callback
    does with it (it builds an embed and sends it) is left open. *)
Definition invoke_user_command (name : Py.str) (callback : option User → Coro unit)
    (argument : option Py.str) : Coro unit :=
  invoke name true (parse_user argument) callback None.

End Cog.

(** ** serverinfo: which channels are secret *)

Inductive ChannelType := TextChannel | VoiceChannel | CategoryChannel | StoreChannel.

Global Instance ChannelType_eq_dec : EqDecision ChannelType.
Proof. solve_decision. Defined.

Global Instance ChannelType_countable : Countable ChannelType.
Proof.
  refine (inj_countable'
    (λ t, match t with
          | TextChannel => 0 | VoiceChannel => 1
          | CategoryChannel => 2 | StoreChannel => 3
          end)
    (λ n, match n with
          | 0 => TextChannel | 1 => VoiceChannel
          | 2 => CategoryChannel | _ => StoreChannel
          end) _).
  by intros [].
Defined.

(** A channel of the guild: its class and the values of the pair
    [channel.overwrites_for(everyone).pair()]. The two masks of a pair
    never share a bit (see [overwrite_pair]). *)
Record Channel := mkChannel {
  channel_type : ChannelType;
  allow_value : Z;
  deny_value : Z
}.

(** The flag values of [discord.Permissions] that [serverinfo] reads. *)
Record PermissionFlags := mkPermissionFlags {
  read_messages : Z;
  connect : Z;
  speak : Z
}.

(** Reading a flag attribute of a [discord.Permissions] value. *)
Definition has_flag (value flag : Z) : bool := (Z.land value flag =? flag)%Z.

(** [collections.Counter] keyed by the channel class. *)
Definition counter_get (c : gmap ChannelType nat) (k : ChannelType) : nat :=
  default 0 (c !! k).
Definition counter_incr (k : ChannelType) (c : gmap ChannelType nat)
    : gmap ChannelType nat :=
  <[k := counter_get c k + 1]> c.

Section Secrecy.

Context (flags : PermissionFlags).

(** [(everyone_perms & ~deny.value) | allow.value] *)
Definition channel_perms (everyone_perms : Z) (channel : Channel) : Z :=
  Z.lor (Z.land everyone_perms (Z.lnot (deny_value channel))) (allow_value channel).

(** The body of the loop over [guild.channels], on [(secret, totals)]. *)
Definition count_channel (everyone_perms : Z)
    (counters : gmap ChannelType nat * gmap ChannelType nat) (channel : Channel)
    : gmap ChannelType nat * gmap ChannelType nat :=
  let '(secret, totals) := counters in
  let perms := channel_perms everyone_perms channel in
  let channel_type := channel_type channel in
  let totals := counter_incr channel_type totals in
  if negb (has_flag perms (read_messages flags))
  then (counter_incr channel_type secret, totals)
  else if bool_decide (channel_type = VoiceChannel) &&
          (negb (has_flag perms (connect flags)) || negb (has_flag perms (speak flags)))
  then (counter_incr channel_type secret, totals)
  else (secret, totals).

Definition count_channels (everyone_perms : Z) (channels : list Channel)
    : gmap ChannelType nat * gmap ChannelType nat :=
  foldl (count_channel everyone_perms) (∅, ∅) channels.

End Secrecy.

(** ** What the handlers are compared with *)

(** The embed [prefix] sends for the list [l] that is left after the
    deletion. *)
Definition prefix_embed (lines : list Py.str) : Embed :=
  mkEmbed (Some (Py.lit "Prefixes")) (Some blurple)
    (Some (Py.str_of_int (N.of_nat (length lines)) ++ Py.lit " prefixes"))
    (Some (Py.join [Py.NEWLINE] lines)).

Definition prefix_line (index : N) (elem : Py.str) : Py.str :=
  Py.str_of_int index ++ Py.lit ". " ++ elem.

Definition index_error : Exn :=
  mkExn IndexError (Py.lit "list assignment index out of range").

Definition reserved_prefix : Exn :=
  mkExn BadArgument (Py.lit "That is a reserved prefix already in use.").

Definition user_not_found : Exn :=
  mkExn BadArgument (Py.lit "User not found.").

(** ** Sample collaborators *)

(** The flag values of discord.py: bits 10, 20 and 21. *)
Definition discord_flags : PermissionFlags :=
  mkPermissionFlags 1024 1048576 2097152.

(** An excerpt of the character database: the name of [A], the ASCII
    digits. *)
Definition ucd_excerpt : Unicode :=
  mkUnicode
    (λ c, if decide (c = 65%N) then Some (Py.lit "LATIN CAPITAL LETTER A") else None)
    (λ c, bool_decide (48 ≤ c ≤ 57)%N).

(** A bot that hands out its stored list for the raw prefixes, lists the two
    mention forms before the stored prefixes, and stores what it is given. *)
Definition plain_bot : Bot :=
  mkBot 80528701850124288
    (λ s, LocalList (mention 80528701850124288 :: mention_nick 80528701850124288 :: s))
    (λ _, StoreObject)
    (λ _ l, inr l)
    (λ _, inl (mkExn NotFound (Py.lit "404 Not Found (error code: 10013): Unknown User"))).

(** The same bot with a store that refuses every write. *)
Definition failing_bot : Bot :=
  mkBot (bot_user_id plain_bot) (guild_prefixes_of plain_bot)
    (raw_guild_prefixes_of plain_bot)
    (λ _ _, inl (mkExn Exception (Py.lit "database is locked")))
    (fetch_user_of plain_bot).

(** A bot whose [get_guild_prefixes] returns the stored list as it is. *)
Definition bare_bot : Bot :=
  mkBot (bot_user_id plain_bot) LocalList (raw_guild_prefixes_of plain_bot)
    (set_guild_prefixes_of plain_bot) (fetch_user_of plain_bot).

Definition sample_tick (opt : bool) : Py.str :=
  if opt then Py.lit "<:greenTick:330090705336664065>"
  else Py.lit "<:redTick:330090723011592193>".

Definition mod_context (b : Bot) : Context := mkContext b sample_tick true.

(** A framework in which no member matches, and which reports a [Union]
    parameter whose converters have all failed as discord.py does: with a
    [BadUnionArgument] that names the parameter and the converters. *)
Definition sample_framework : Framework :=
  mkFramework
    (λ a, inl (mkExn BadArgument
                 (Py.lit "Member " ++ [34%N] ++ a ++ [34%N] ++ Py.lit " not found")))
    (λ errors, mkExn BadUnionArgument
                 (Py.lit "Could not convert " ++ [34%N] ++ Py.lit "user" ++ [34%N] ++
                  Py.lit " into Member or FetchedUser."))
    exn_text.

(** ** More of the cog *)

(** A bot whose [get_guild_prefixes] hands out the stored list object. *)
Definition aliasing_bot : Bot :=
  mkBot (bot_user_id plain_bot) (λ _, StoreObject) (raw_guild_prefixes_of plain_bot)
    (set_guild_prefixes_of plain_bot) (fetch_user_of plain_bot).

(** *** Python strings, continued *)

Definition AT_SIGN : N := 64.
(** [\u200b] *)
Definition ZERO_WIDTH_SPACE : N := 8203.

(** [str(z)] and [f"{z}"] for any [int]. *)
Definition str_of_Z (z : Z) : Py.str :=
  if (z <? 0)%Z then Py.lit "-" ++ Py.str_of_int (Z.to_N (- z))
  else Py.str_of_int (Z.to_N z).

(** [s.replace(old, new)] for an [old] of one character. *)
Definition replace_char (old : N) (new s : Py.str) : Py.str :=
  s ≫= λ c, if decide (c = old) then new else [c].

(** [s.replace(old, new)] for a non-empty [old]: the occurrences are taken
    from the left and do not overlap; [skip] characters of the occurrence
    just replaced are still to be passed over. *)
Fixpoint replace_from (skip : nat) (old new s : Py.str) : Py.str :=
  match s with
  | [] => []
  | c :: s' =>
      match skip with
      | S k => replace_from k old new s'
      | 0 =>
          if Py.startswith s old
          then new ++ replace_from (length old - 1) old new s'
          else c :: replace_from 0 old new s'
      end
  end.

Definition replace (old new s : Py.str) : Py.str := replace_from 0 old new s.

(** *** info and serverinfo: the roles *)

(** [[role.name.replace("@", "@\u200b") for role in ...]], on the names. *)
Definition role_names (names : list Py.str) : list Py.str :=
  replace_char AT_SIGN [AT_SIGN; ZERO_WIDTH_SPACE] <$> names.

(** [", ".join(roles) if len(roles) < 10 else f"{len(roles)} roles"] *)
Definition roles_value (roles : list Py.str) : Py.str :=
  if decide (length roles < 10) then Py.join (Py.lit ", ") roles
  else Py.str_of_int (N.of_nat (length roles)) ++ Py.lit " roles".

(** *** serverinfo: the emoji *)

Record Emoji := mkEmoji { animated : bool; available : bool }.

(** [collections.Counter] keyed by strings; [c[k] += n]. *)
Definition stats_get (c : gmap (list N) nat) (k : Py.str) : nat :=
  default 0 (c !! k).
Definition stats_add (k : Py.str) (n : nat) (c : gmap (list N) nat)
    : gmap (list N) nat :=
  <[k := stats_get c k + n]> c.

(** [not emoji.available] as the [int] that is added. *)
Definition int_of_not (b : bool) : nat := if b then 0 else 1.

(** The body of the loop over [guild.emojis]. *)
Definition count_emoji (emoji_stats : gmap (list N) nat) (emoji : Emoji)
    : gmap (list N) nat :=
  if animated emoji
  then stats_add (Py.lit "animated_disabled") (int_of_not (available emoji))
         (stats_add (Py.lit "animated") 1 emoji_stats)
  else stats_add (Py.lit "disabled") (int_of_not (available emoji))
         (stats_add (Py.lit "regular") 1 emoji_stats).

Definition count_emojis (emojis : list Emoji) : gmap (list N) nat :=
  foldl count_emoji ∅ emojis.

(** The value of the "Emoji" field. *)
Definition emoji_value (emojis : list Emoji) (emoji_limit : N) : Py.str :=
  let emoji_stats := count_emojis emojis in
  let shown k := Py.str_of_int (N.of_nat (stats_get emoji_stats (Py.lit k))) in
  let fmt :=
    Py.lit "Regular: " ++ shown "regular" ++ Py.lit "/" ++
    Py.str_of_int emoji_limit ++ [Py.NEWLINE] ++
    Py.lit "Animated: " ++ shown "animated" ++ Py.lit "/" ++
    Py.str_of_int emoji_limit ++ [Py.NEWLINE] in
  let fmt :=
    if bool_decide (stats_get emoji_stats (Py.lit "disabled") ≠ 0)
       || bool_decide (stats_get emoji_stats (Py.lit "animated_disabled") ≠ 0)
    then fmt ++ Py.lit "Disabled: " ++ shown "disabled" ++ Py.lit " regular, " ++
         shown "animated_disabled" ++ Py.lit " animated" ++ [Py.NEWLINE]
    else fmt in
  fmt ++ Py.lit "Total Emoji: " ++ Py.str_of_int (N.of_nat (length emojis)) ++
  Py.lit "/" ++ Py.str_of_int (emoji_limit * 2).

(** *** say_permissions *)

(** The member as [say_permissions] reads it: [str(member)],
    [member.colour] and [member.avatar_url_as(static_format="png")]. *)
Record Member := mkMember {
  member_str : Py.str;
  member_colour : N;
  member_avatar : Py.str
}.

(** [discord.Embed], with the attributes [say_permissions] sets. *)
Record PermissionsEmbed := mkPermissionsEmbed {
  embed_colour : N;
  author_name : Py.str;
  author_url : Py.str;
  fields : list (Py.str * Py.str)
}.

Section SayPermissions.

(** [str.title] *)
Context (title_case : Py.str → Py.str).

(** [name.replace("_", " ").replace("guild", "server").title()] *)
Definition permission_label (name : Py.str) : Py.str :=
  title_case (replace (Py.lit "guild") (Py.lit "server")
                (replace_char 95 (Py.lit " ") name)).

(** The body of the loop over the permissions, on [(allowed, denied)]. *)
Definition sort_permission (lists : list Py.str * list Py.str)
    (permission : Py.str * bool) : list Py.str * list Py.str :=
  let '(allowed, denied) := lists in
  let '(name, value) := permission in
  let name := permission_label name in
  if value then (allowed ++ [name], denied) else (allowed, denied ++ [name]).

(** The embed [say_permissions] passes to [ctx.send], for the pairs that
    [channel.permissions_for(member)] yields. *)
Definition say_permissions (member : Member) (permissions : list (Py.str * bool))
    : PermissionsEmbed :=
  let avatar := member_avatar member in
  let '(allowed, denied) := foldl sort_permission ([], []) permissions in
  mkPermissionsEmbed (member_colour member) (member_str member) avatar
    [(Py.lit "Allowed", Py.join [Py.NEWLINE] allowed);
     (Py.lit "Denied", Py.join [Py.NEWLINE] denied)].

End SayPermissions.

(** *** msgraw *)

(** An error as an error handler gets it: a [CommandInvokeError] has the
    exception it wraps as its [original]. *)
Record Failure := mkFailure { failure_error : Exn; failure_original : option Exn }.

Section RawMessage.

(** [ctx.bot.http.get_message(ctx.channel.id, message_id)]; the text made of
    its result by [json.dumps] and the helpers of [formats];
    [ctx.channel.mention]; and the exception with which the platform refuses
    a message, if it does. *)
Context {Payload : Type}
  (get_message : Z → Exn + Payload)
  (dumped : Payload → Py.str)
  (channel_mention : Py.str)
  (send_refused : Py.str → option Exn).

(** [ctx.send(content)] with its outcome. *)
Definition ctx_send_checked (content : Py.str) : Coro unit :=
  emit (Send content) ;;
  match send_refused content with
  | Some e => raise e
  | None => ret tt
  end.

Definition raw_message (message_id : Z) : Coro unit :=
  match get_message message_id with
  | inl err =>
      if isinstance err NotFound
      then raise (mkExn BadArgument
                    (Py.lit "Message with the ID of " ++ str_of_Z message_id ++
                     Py.lit " cannot be found in " ++ channel_mention ++ Py.lit "."))
      else raise err
  | inr msg =>
      ctx_send_checked
        (Py.lit "```json" ++ [Py.NEWLINE] ++ dumped msg ++ [Py.NEWLINE] ++ Py.lit "```")
  end.

Definition mgsr_error (error : Failure) : Coro unit :=
  let error := default (failure_error error) (failure_original error) in
  if isinstance error HTTPException
  then ctx_send_checked (Py.lit "The specified message's content is too long to repeat.")
  else ret tt.

(** The failure the framework makes of an exception of the callback. *)
Definition callback_failure (e : Exn) : Failure :=
  if isinstance e CommandError then mkFailure e None
  else mkFailure
         (mkExn CommandInvokeError
            (Py.lit "Command raised an exception: " ++
             class_name (exn_class e) ++ Py.lit ": " ++ exn_text e))
         (Some e).

(** [msgraw] as the framework runs it, for a message id already converted:
    a failure of the callback goes to [mgsr_error], then to
    [cog_command_error], and is passed on. *)
Definition invoke_raw_message (message_id : Z) : Coro unit :=
  λ w, match raw_message message_id w with
       | (Return _, w') => (Return tt, w')
       | (Raise e, w') =>
           let failure := callback_failure e in
           match (mgsr_error failure ;;
                  cog_command_error (failure_error failure)) w' with
           | (Return _, w'') => (Raise (failure_error failure), w'')
           | (Raise e', w'') => (Raise e', w'')
           end
       end.

End RawMessage.

(** *** serverinfo: where the masks of a channel come from *)

(** [channel.overwrites_for(everyone).pair()] for an overwrite that is
    stored with the masks [allow] and [deny]. The library rebuilds the
    overwrite flag by flag from the two masks, a denied flag overriding an
    allowed one ([PermissionOverwrite.from_pair]), and reads the pair back
    from it: the two masks of the pair never share a bit. [known] is the
    mask of all flags of [discord.Permissions]; no other bit is kept. *)
Definition overwrite_pair (known allow deny : Z) : Z * Z :=
  (Z.land (Z.land allow (Z.lnot deny)) known, Z.land deny known).

(** The channel as [serverinfo] sees it, for the stored overwrite. *)
Definition overwrite_channel (known : Z) (type : ChannelType) (allow deny : Z)
    : Channel :=
  mkChannel type (overwrite_pair known allow deny).1 (overwrite_pair known allow deny).2.

(** [discord.Permissions.all().value]: bits 0 to 30. *)
Definition known_flags : Z := 2147483647.

(** *** What the added handlers are compared with *)

(** The character is an ASCII digit. *)
Definition is_digit (c : N) : Prop := (48 ≤ c ≤ 57)%N.

(** Every [@] of [s] is followed by a zero width space. *)
Definition at_guarded (s : list N) : Prop :=
  ∀ k : nat, s !! k = Some AT_SIGN → s !! S k = Some ZERO_WIDTH_SPACE.

(** The channel counts as secret in [serverinfo]. *)
Definition locked (flags : PermissionFlags) (everyone_perms : Z) (channel : Channel)
    : bool :=
  let perms := channel_perms everyone_perms channel in
  negb (has_flag perms (read_messages flags))
  || bool_decide (channel_type channel = VoiceChannel)
     && negb (has_flag perms (connect flags) && has_flag perms (speak flags)).

(** How many elements of [l] satisfy [p]. *)
Definition count_if {A} (p : A → bool) (l : list A) : nat :=
  length (filter (λ x, p x = true) l).

(** * Properties *)

(** ** Strings, lists and exceptions *)

Example lit_A : Py.lit "A" = [65%N].
Proof. reflexivity. Qed.

Example str_of_int_2020 : Py.str_of_int 2020 = Py.lit "2020".
Proof. reflexivity. Qed.

Example format_x_em_dash : Py.format_x Py.EM_DASH = Py.lit "2014".
Proof. reflexivity. Qed.

Example format_rjust0_41 : Py.format_rjust0 8 (Py.lit "41") = Py.lit "00000041".
Proof. reflexivity. Qed.

Example split_on_two_lines :
  Py.split_on Py.NEWLINE (Py.lit "1. !" ++ [Py.NEWLINE] ++ Py.lit "2. ?") =
  [Py.lit "1. !"; Py.lit "2. ?"].
Proof. reflexivity. Qed.

Example NotFound_is_HTTPException :
  isinstance (mkExn NotFound []) HTTPException = true
  ∧ isinstance (mkExn BadUnionArgument []) BadArgument = false.
Proof. split; reflexivity. Qed.

Lemma startswith_app (p rest : Py.str) : Py.startswith (p ++ rest) p = true.
Proof.
  induction p as [|c p IH]; simpl; [done|].
  by rewrite bool_decide_eq_true_2.
Qed.

Lemma startswith_inv (s p : Py.str) :
  Py.startswith s p = true → ∃ rest, s = p ++ rest.
Proof.
  revert s. induction p as [|c p IH]; intros s H.
  - by exists s.
  - destruct s as [|d s]; simpl in H; [done|].
    apply andb_prop in H as [Hc Hs].
    apply bool_decide_eq_true_1 in Hc as ->.
    destruct (IH _ Hs) as [rest ->]. by exists rest.
Qed.

Lemma enumerate_lookup {A} (l : list A) (start : N) (k : nat) :
  Py.enumerate start l !! k = (λ x, ((start + N.of_nat k)%N, x)) <$> l !! k.
Proof.
  revert start k. induction l as [|x l IH]; intros start [|k]; simpl; try done.
  - by rewrite N.add_0_r.
  - rewrite IH. destruct (l !! k); simpl; [|done].
    do 2 f_equal. lia.
Qed.

Lemma enumerate_length {A} (l : list A) (start : N) :
  length (Py.enumerate start l) = length l.
Proof. revert start. induction l; intros; simpl; auto. Qed.

Lemma remove_first_None (x : Py.str) (l : list Py.str) :
  remove_first x l = None ↔ x ∉ l.
Proof.
  induction l as [|y l IH]; simpl.
  - split; [intros _; apply not_elem_of_nil | done].
  - rewrite not_elem_of_cons. destruct (decide (y = x)) as [->|Hne].
    + split; [done | by intros [? _]].
    + rewrite fmap_None, IH. split; [intros H; split; [congruence | exact H] | by intros [_ H]].
Qed.

Lemma isinstance_Exception (e : Exn) : isinstance e Exception = true.
Proof. by destruct e as [[] ?]. Qed.

(** ** Permission overwrites *)

Lemma channel_perms_testbit (everyone_perms : Z) (channel : Channel) (i : Z) :
  Z.testbit (channel_perms everyone_perms channel) i =
  Z.testbit everyone_perms i && negb (Z.testbit (deny_value channel) i)
  || Z.testbit (allow_value channel) i.
Proof.
  unfold channel_perms. destruct (Z.neg_nonneg_cases i) as [Hneg|Hpos].
  - by rewrite !Z.testbit_neg_r.
  - by rewrite Z.lor_spec, Z.land_spec, Z.lnot_spec.
Qed.

Lemma overwrite_pair_testbit (known allow deny i : Z) :
  Z.testbit (overwrite_pair known allow deny).1 i =
    Z.testbit allow i && negb (Z.testbit deny i) && Z.testbit known i
  ∧ Z.testbit (overwrite_pair known allow deny).2 i =
    Z.testbit deny i && Z.testbit known i.
Proof.
  unfold overwrite_pair. simpl. destruct (Z.neg_nonneg_cases i) as [Hneg|Hpos].
  - by rewrite !Z.testbit_neg_r.
  - by rewrite !Z.land_spec, Z.lnot_spec.
Qed.

(** C3 (as the code has it). For every channel, every base mask and every
    stored overwrite, the value [serverinfo] classifies the channel by is
    [(base & ~deny) | allow] for the masks of
    [overwrites_for(everyone).pair()]. These two masks never share a bit,
    so no bit meets both in the formula; bit by bit the value is clear
    where the overwrite denies the flag (also when it allows it as well:
    deny wins), set where it allows the flag without denying it, and the
    bit of the base everywhere else. *)
Theorem channel_perms_pair (known everyone_perms allow deny : Z) (type : ChannelType) :
  let channel := overwrite_channel known type allow deny in
  Z.land (allow_value channel) (deny_value channel) = 0%Z
  ∧ ∀ i : Z,
      Z.testbit (channel_perms everyone_perms channel) i =
      if Z.testbit known i && Z.testbit deny i then false
      else if Z.testbit known i && Z.testbit allow i then true
      else Z.testbit everyone_perms i.
Proof.
  intros channel. split.
  - apply Z.bits_inj'. intros i _. rewrite Z.land_spec, Z.bits_0.
    destruct (overwrite_pair_testbit known allow deny i) as [Ha Hd].
    unfold channel, overwrite_channel. cbn [allow_value deny_value].
    rewrite Ha, Hd.
    by destruct (Z.testbit allow i), (Z.testbit deny i), (Z.testbit known i).
  - intros i. rewrite channel_perms_testbit.
    destruct (overwrite_pair_testbit known allow deny i) as [Ha Hd].
    unfold channel, overwrite_channel. cbn [allow_value deny_value].
    rewrite Ha, Hd.
    by destruct (Z.testbit everyone_perms i), (Z.testbit allow i),
      (Z.testbit deny i), (Z.testbit known i).
Qed.

(** C3 fails as stated: for an overwrite that both allows and denies
    [read_messages] (bit 10), with the flag in the base, the masks that
    reach the formula are [0] and [1024], the bit of the value is clear and
    the channel counts as secret: deny wins, not allow. *)
Lemma channel_perms_both_set_denied :
  let channel := overwrite_channel known_flags TextChannel 1024 1024 in
  Z.testbit 1024 10 = true
  ∧ (allow_value channel, deny_value channel) = (0%Z, 1024%Z)
  ∧ Z.testbit (channel_perms 1024 channel) 10 = false
  ∧ counter_get (count_channels discord_flags 1024 [channel]).1 TextChannel = 1.
Proof. by vm_compute. Qed.

(** A flag in the allow mask of the pair is read as set. *)
Lemma has_flag_allowed (everyone_perms : Z) (channel : Channel) (flag : Z) :
  has_flag (allow_value channel) flag = true →
  has_flag (channel_perms everyone_perms channel) flag = true.
Proof.
  unfold has_flag. rewrite !Z.eqb_eq. intros Ha.
  apply Z.bits_inj'. intros i _.
  rewrite Z.land_spec, channel_perms_testbit.
  apply (f_equal (λ z, Z.testbit z i)) in Ha. rewrite Z.land_spec in Ha.
  destruct (Z.testbit flag i); [|by rewrite andb_false_r].
  rewrite andb_true_r in *. rewrite Ha. by rewrite orb_true_r.
Qed.

Example count_channels_allow_and_deny :
  let '(secret, totals) :=
    count_channels discord_flags 0
      [overwrite_channel known_flags TextChannel 1024 0;
       overwrite_channel known_flags VoiceChannel 1024 3145728] in
  (counter_get secret TextChannel, counter_get totals TextChannel,
   counter_get secret VoiceChannel, counter_get totals VoiceChannel) = (0, 1, 1, 1).
Proof. by vm_compute. Qed.

(** ** The prefix commands *)

Ltac run_coro :=
  cbv beta iota delta
    [bind ret raise emit ctx_send ctx_send_embed try_except_else
     get_guild_prefixes get_raw_guild_prefixes set_guild_prefixes
     list_append list_remove list_del list_value list_assign]; simpl.

(** C1 (as the code has it). For every stored prefix list and every prefix
    string, present in the list or not, [prefix add] passes the list with
    the string appended at its end to the external setter and returns
    normally after one reply: the success tick when the setter returns, the
    failure tick, a space and the text of the setter's exception when it
    raises. *)
Theorem prefix_add_appends (ctx : Context) (prefix : Py.str) (w : World) :
  let l := raw_list ctx w ++ [prefix] in
  let s := match raw_guild_prefixes_of (bot ctx) (stored w) with
           | StoreObject => l
           | LocalList _ => stored w
           end in
  prefix_add ctx prefix w =
    match set_guild_prefixes_of (bot ctx) s l with
    | inr s' =>
        (Return tt,
         mkWorld s' (log w ++ [SetGuildPrefixes l; Send (tick ctx true)]))
    | inl e =>
        (Return tt,
         mkWorld s (log w ++ [SetGuildPrefixes l;
                              Send (tick ctx false ++ Py.lit " " ++ exn_text e)]))
    end.
Proof.
  unfold prefix_add, raw_list. run_coro.
  destruct (raw_guild_prefixes_of (bot ctx) (stored w)) as [|l]; simpl;
    match goal with
    | |- context [set_guild_prefixes_of ?b ?s ?l] =>
        destruct (set_guild_prefixes_of b s l) as [e|s']
    end; simpl; rewrite ?isinstance_Exception, <- ?app_assoc; reflexivity.
Qed.

(** C1 fails as stated: with ["!"] stored, [prefix add "!"] is accepted, and
    the setter receives ["!", "!"]. *)
Lemma prefix_add_duplicate_accepted :
  let w := mkWorld [Py.lit "!"] [] in
  Py.lit "!" ∈ raw_list (mod_context plain_bot) w
  ∧ invoke_prefix_add sample_framework (mod_context plain_bot) [Py.lit "!"] w =
      (Return tt,
       mkWorld [Py.lit "!"; Py.lit "!"]
         [SetGuildPrefixes [Py.lit "!"; Py.lit "!"]; Send (sample_tick true)]).
Proof. split; [apply list_elem_of_here | by vm_compute]. Qed.

(** C7. For every stored prefix list and every string that is not in it,
    [prefix remove] replies "I do not have this prefix registered." and
    returns: the setter is not called and the stored list is as before. *)
Theorem prefix_remove_absent (ctx : Context) (prefix : Py.str) (w : World) :
  prefix ∉ raw_list ctx w →
  prefix_remove ctx prefix w =
    (Return tt,
     mkWorld (stored w)
       (log w ++ [Send (Py.lit "I do not have this prefix registered.")])).
Proof.
  intros Habsent. apply remove_first_None in Habsent.
  unfold prefix_remove, raw_list in *. run_coro.
  by rewrite Habsent.
Qed.

Lemma prefix_remove_absent_witness :
  prefix_remove (mod_context plain_bot) (Py.lit "?") (mkWorld [Py.lit "!"] []) =
    (Return tt,
     mkWorld [Py.lit "!"] [Send (Py.lit "I do not have this prefix registered.")]).
Proof.
  apply (prefix_remove_absent (mod_context plain_bot) (Py.lit "?")
           (mkWorld [Py.lit "!"] [])).
  apply (bool_decide_unpack _). vm_compute. exact I.
Defined.

(** *** When the setter raises *)

Lemma prefix_add_setter_raises (ctx : Context) (prefix : Py.str) (w : World) (e : Exn) :
  (∀ s l, set_guild_prefixes_of (bot ctx) s l = inl e) →
  ∃ s, prefix_add ctx prefix w =
    (Return tt,
     mkWorld s (log w ++ [SetGuildPrefixes (raw_list ctx w ++ [prefix]);
                          Send (tick ctx false ++ Py.lit " " ++ exn_text e)])).
Proof.
  intros Hfail. unfold prefix_add, raw_list. run_coro.
  destruct (raw_guild_prefixes_of (bot ctx) (stored w)) as [|l]; simpl;
    rewrite Hfail; simpl; rewrite isinstance_Exception, <- app_assoc; simpl;
    by eexists.
Qed.

Lemma prefix_remove_setter_raises (ctx : Context) (prefix : Py.str) (w : World) (e : Exn) :
  prefix ∈ raw_list ctx w →
  (∀ s l, set_guild_prefixes_of (bot ctx) s l = inl e) →
  ∃ s l, remove_first prefix (raw_list ctx w) = Some l ∧
    prefix_remove ctx prefix w =
    (Return tt,
     mkWorld s (log w ++ [SetGuildPrefixes l;
                          Send (tick ctx false ++ Py.lit " " ++ exn_text e)])).
Proof.
  intros Hin Hfail.
  destruct (remove_first prefix (raw_list ctx w)) as [l|] eqn:Hl;
    [|by apply remove_first_None in Hl].
  unfold prefix_remove, raw_list in *. run_coro. rewrite Hl.
  destruct (raw_guild_prefixes_of (bot ctx) (stored w)) as [|l0]; simpl;
    rewrite Hfail; simpl; rewrite isinstance_Exception, <- app_assoc; simpl;
    by eexists _, _.
Qed.

Lemma prefix_clear_setter_raises (ctx : Context) (w : World) (e : Exn) :
  set_guild_prefixes_of (bot ctx) (stored w) [] = inl e →
  prefix_clear ctx w = (Raise e, mkWorld (stored w) (log w ++ [SetGuildPrefixes []])).
Proof. intros Hfail. unfold prefix_clear. run_coro. by rewrite Hfail. Qed.

(** C2 at [prefix clear]: with a store that refuses the write, the setter's
    exception leaves [prefix_clear], nothing is sent, and the framework
    passes it on wrapped; [prefix_add] in the same situation replies with
    the failure tick and the error text. *)
Theorem prefix_clear_propagates :
  let ctx := mod_context failing_bot in
  let w := mkWorld [Py.lit "!"] [] in
  prefix_clear ctx w =
    (Raise (mkExn Exception (Py.lit "database is locked")),
     mkWorld [Py.lit "!"] [SetGuildPrefixes []])
  ∧ invoke_prefix_clear ctx w =
    (Raise (mkExn CommandInvokeError
              (Py.lit "Command raised an exception: Exception: database is locked")),
     mkWorld [Py.lit "!"] [SetGuildPrefixes []])
  ∧ prefix_add ctx (Py.lit "?") w =
    (Return tt,
     mkWorld [Py.lit "!"; Py.lit "?"]
       [SetGuildPrefixes [Py.lit "!"; Py.lit "?"];
        Send (sample_tick false ++ Py.lit " database is locked")]).
Proof. by vm_compute. Qed.

(** *** The bare command *)

Lemma prefix_run (ctx : Context) (w : World) :
  prefix ctx w =
  let l := shown_list ctx w in
  if decide (1 < length l)
  then (Return tt,
        mkWorld (match guild_prefixes_of (bot ctx) (stored w) with
                 | StoreObject => delete 1 l
                 | LocalList _ => stored w
                 end)
          (log w ++ [SendEmbed (prefix_embed
             ((λ '(index, elem), prefix_line index elem) <$> Py.enumerate 1 (delete 1 l)))]))
  else (Raise index_error, w).
Proof.
  unfold prefix, shown_list, prefix_embed. run_coro.
  destruct (guild_prefixes_of (bot ctx) (stored w)) as [|l]; simpl;
    case_decide; simpl; try done;
    by rewrite !length_fmap, !enumerate_length.
Qed.

Lemma prefix_lines_lookup (l : list Py.str) (k : nat) :
  ((λ '(index, elem), prefix_line index elem) <$> Py.enumerate 1 (delete 1 l)) !! k =
  prefix_line (N.of_nat (k + 1)) <$> l !! (if decide (k < 1) then k else S k).
Proof.
  rewrite list_lookup_fmap, enumerate_lookup, list_lookup_delete.
  destruct (l !! _); simpl; [|done].
  do 2 f_equal. lia.
Qed.

(** C5 (general part). For every list of at least two entries returned by
    [get_guild_prefixes], [prefix] sends one embed whose description has one
    line per entry other than the entry at index 1, in stored order, the
    line at position [k] (from 0) being numbered [k + 1]; the footer counts
    these lines. *)
Theorem prefix_display (ctx : Context) (w : World) :
  2 ≤ length (shown_list ctx w) →
  ∃ s lines,
    prefix ctx w = (Return tt, mkWorld s (log w ++ [SendEmbed (prefix_embed lines)]))
    ∧ length lines = length (shown_list ctx w) - 1
    ∧ ∀ k : nat,
        lines !! k =
        prefix_line (N.of_nat (k + 1)) <$>
          shown_list ctx w !! (if decide (k < 1) then k else S k).
Proof.
  intros Hlen. rewrite prefix_run. simpl.
  rewrite decide_True by lia.
  eexists _, _. split; [reflexivity|]. split.
  - rewrite length_fmap, enumerate_length, length_delete; [done|].
    apply lookup_lt_is_Some. lia.
  - apply prefix_lines_lookup.
Qed.

Lemma prefix_display_witness :
  ∃ s lines,
    prefix (mod_context bare_bot) (mkWorld [Py.lit "?"; Py.lit "!"] []) =
      (Return tt, mkWorld s ([] ++ [SendEmbed (prefix_embed lines)]))
    ∧ length lines = 2 - 1
    ∧ ∀ k : nat,
        lines !! k =
        prefix_line (N.of_nat (k + 1)) <$>
          [Py.lit "?"; Py.lit "!"] !! (if decide (k < 1) then k else S k).
Proof.
  apply (prefix_display (mod_context bare_bot) (mkWorld [Py.lit "?"; Py.lit "!"] [])).
  simpl. lia.
Defined.

(** C5 fails on its example: for ["!", "<mention>", "<mention2>", "?"] the
    description is "1. !", "2. <mention2>", "3. ?", not "1. !", "2. ?". *)
Lemma prefix_display_four_entries :
  let w := mkWorld [Py.lit "!"; Py.lit "<mention>"; Py.lit "<mention2>"; Py.lit "?"] [] in
  prefix (mod_context bare_bot) w =
    (Return tt,
     mkWorld (stored w)
       [SendEmbed (prefix_embed [Py.lit "1. !"; Py.lit "2. <mention2>"; Py.lit "3. ?"])])
  ∧ prefix (mod_context bare_bot) w ≠
    (Return tt,
     mkWorld (stored w) [SendEmbed (prefix_embed [Py.lit "1. !"; Py.lit "2. ?"])]).
Proof. split; [by vm_compute | vm_compute; discriminate]. Qed.

(** C9. If [get_guild_prefixes] returns fewer than two entries, [prefix]
    raises [IndexError] at the deletion with nothing sent and nothing
    changed, and the framework passes the error on without a reply; [prefix]
    returns normally exactly when the list has at least two entries. *)
Theorem prefix_short_list (ctx : Context) (w : World) :
  (length (shown_list ctx w) < 2 →
   prefix ctx w = (Raise index_error, w)
   ∧ invoke_prefix ctx w =
       (Raise (mkExn CommandInvokeError
                 (Py.lit "Command raised an exception: IndexError: " ++
                  exn_text index_error)), w))
  ∧ ((∃ w', prefix ctx w = (Return tt, w')) ↔ 2 ≤ length (shown_list ctx w)).
Proof.
  split.
  - intros Hlen.
    assert (prefix ctx w = (Raise index_error, w)) as Hrun.
    { rewrite prefix_run. simpl. by rewrite decide_False by lia. }
    split; [done|].
    unfold invoke_prefix, invoke, wrap_callback, bind, ret. by rewrite Hrun.
  - rewrite prefix_run. simpl. case_decide.
    + split; [lia | by eexists].
    + split; [by intros [? ?] | lia].
Qed.

Lemma prefix_short_list_witness :
  prefix (mod_context bare_bot) (mkWorld [Py.lit "!"] []) =
    (Raise index_error, mkWorld [Py.lit "!"] [])
  ∧ invoke_prefix (mod_context bare_bot) (mkWorld [Py.lit "!"] []) =
      (Raise (mkExn CommandInvokeError
                (Py.lit "Command raised an exception: IndexError: " ++
                 exn_text index_error)), mkWorld [Py.lit "!"] []).
Proof.
  apply (proj1 (prefix_short_list (mod_context bare_bot) (mkWorld [Py.lit "!"] []))).
  simpl. lia.
Defined.

(** ** The converters *)

Lemma Prefix_convert_run (ctx : Context) (argument : Py.str) (w : World) :
  Prefix_convert ctx argument w =
  if Py.startswith argument (mention (bot_user_id (bot ctx)))
     || Py.startswith argument (mention_nick (bot_user_id (bot ctx)))
  then (Raise reserved_prefix, w)
  else (Return argument, w).
Proof.
  unfold Prefix_convert, Py.startswith_any. simpl. rewrite orb_false_r.
  by destruct (_ || _).
Qed.

Lemma invoke_reserved {A} (fw : Framework) (ctx : Context) (name param : Py.str)
    (convert : Py.str → Coro A) (callback : A → Coro unit)
    (on_error : option (Exn → Coro unit))
    (argument : Py.str) (more : list Py.str) (w : World) :
  convert argument w = (Raise reserved_prefix, w) →
  match on_error with
  | Some h => ∀ e, isinstance e TooManyArguments = false → h e = ret tt
  | None => True
  end →
  invoke name (author_is_mod ctx)
    (parse_single fw name param convert (argument :: more))
    callback on_error w =
  (Raise (if author_is_mod ctx then reserved_prefix else check_failure name),
   mkWorld (stored w)
     (log w ++ if author_is_mod ctx then [Send (exn_text reserved_prefix)] else [])).
Proof.
  intros Hconv Hlocal. unfold invoke, parse_single, actual_conversion, bind.
  destruct (author_is_mod ctx).
  - rewrite Hconv. simpl. unfold dispatch_error, bind.
    by destruct on_error as [h|]; [rewrite Hlocal|].
  - simpl. rewrite app_nil_r. unfold dispatch_error, bind.
    destruct w. by destruct on_error as [h|]; [rewrite Hlocal|].
Qed.

(** C6. For every argument that begins with [<@id>] or [<@!id>] of the bot's
    own id, [Prefix.convert] raises [BadArgument] and does nothing else;
    [prefix add] and [prefix remove] given such an argument end in an error
    with the stored list as before and no call of the setter: the only thing
    done is the reply with the error text, when the author passed the check. *)
Theorem Prefix_convert_reserved (fw : Framework) (ctx : Context)
    (argument : Py.str) (more : list Py.str) (w : World) :
  (∃ rest, argument = mention (bot_user_id (bot ctx)) ++ rest
         ∨ argument = mention_nick (bot_user_id (bot ctx)) ++ rest) →
  let e name := if author_is_mod ctx then reserved_prefix else check_failure name in
  let w' := mkWorld (stored w)
              (log w ++ if author_is_mod ctx
                        then [Send (Py.lit "That is a reserved prefix already in use.")]
                        else []) in
  Prefix_convert ctx argument w = (Raise reserved_prefix, w)
  ∧ invoke_prefix_add fw ctx (argument :: more) w = (Raise (e (Py.lit "prefix add")), w')
  ∧ invoke_prefix_remove fw ctx (argument :: more) w =
      (Raise (e (Py.lit "prefix remove")), w').
Proof.
  intros [rest Hstart] e w'.
  assert (Prefix_convert ctx argument w = (Raise reserved_prefix, w)) as Hconv.
  { rewrite Prefix_convert_run.
    destruct Hstart as [-> | ->]; rewrite startswith_app; by rewrite ?orb_true_r. }
  split; [done|]. split.
  - apply invoke_reserved; [done|].
    intros err Herr. unfold prefix_add_error. by rewrite Herr.
  - by apply invoke_reserved.
Qed.

Lemma Prefix_convert_reserved_witness :
  let ctx := mod_context plain_bot in
  let w := mkWorld [Py.lit "!"] [] in
  let w' := mkWorld [Py.lit "!"]
              [Send (Py.lit "That is a reserved prefix already in use.")] in
  Prefix_convert ctx (Py.lit "<@!80528701850124288>") w = (Raise reserved_prefix, w)
  ∧ invoke_prefix_add sample_framework ctx [Py.lit "<@!80528701850124288>"] w = (Raise reserved_prefix, w')
  ∧ invoke_prefix_remove sample_framework ctx [Py.lit "<@!80528701850124288>"] w =
      (Raise reserved_prefix, w').
Proof.
  apply (Prefix_convert_reserved sample_framework (mod_context plain_bot)
           (Py.lit "<@!80528701850124288>") [] (mkWorld [Py.lit "!"] [])).
  exists []. right. reflexivity.
Defined.

(** A string that begins with neither mention form is returned as it is. *)
Lemma Prefix_convert_accepts (ctx : Context) (argument : Py.str) (w : World) :
  (∀ rest, argument ≠ mention (bot_user_id (bot ctx)) ++ rest) →
  (∀ rest, argument ≠ mention_nick (bot_user_id (bot ctx)) ++ rest) →
  Prefix_convert ctx argument w = (Return argument, w).
Proof.
  intros H1 H2. rewrite Prefix_convert_run.
  destruct (Py.startswith argument (mention _)) eqn:E1.
  { apply startswith_inv in E1 as [rest ->]. by destruct (H1 rest). }
  destruct (Py.startswith argument (mention_nick _)) eqn:E2; [|done].
  apply startswith_inv in E2 as [rest ->]. by destruct (H2 rest).
Qed.

Lemma FetchedUser_convert_not_found (ucd : Unicode) (ctx : Context)
    (argument : Py.str) (w : World) (e : Exn) :
  isdigit ucd argument = true →
  fetch_user_of (bot ctx) argument = inl e →
  isinstance e NotFound = true →
  FetchedUser_convert ucd ctx argument w =
    (Raise user_not_found, mkWorld (stored w) (log w ++ [FetchUser argument])).
Proof.
  intros Hdigit Hfetch Hnf. unfold FetchedUser_convert, fetch_user.
  rewrite Hdigit. run_coro. rewrite Hfetch. simpl. by rewrite Hnf.
Qed.

Lemma cog_command_error_BadArgument (text : Py.str) (w : World) :
  cog_command_error (mkExn BadArgument text) w =
    (Return tt, mkWorld (stored w) (log w ++ [Send text])).
Proof. reflexivity. Qed.

Lemma cog_command_error_other (error : Exn) (w : World) :
  isinstance error BadArgument = false →
  cog_command_error error w = (Return tt, w).
Proof. intros H. unfold cog_command_error. by rewrite H. Qed.

Lemma convert_member_or_fetched_not_found (ucd : Unicode) (fw : Framework)
    (ctx : Context) (argument : Py.str) (w : World) (e1 e2 : Exn) :
  isdigit ucd argument = true →
  member_convert fw argument = inl e1 →
  fetch_user_of (bot ctx) argument = inl e2 →
  isinstance e2 NotFound = true →
  ∃ e1', convert_member_or_fetched ucd fw ctx argument w =
    (Raise (union_failed fw [e1'; user_not_found]),
     mkWorld (stored w) (log w ++ [FetchUser argument])).
Proof.
  intros Hdigit Hmember Hfetch Hnf.
  unfold convert_member_or_fetched, actual_conversion, raise. rewrite Hmember.
  destruct (isinstance e1 CommandError);
    rewrite (FetchedUser_convert_not_found ucd ctx argument _ e2) by done;
    by eexists.
Qed.

(** C8 on the code. [info 123], where 123 is no member and [fetch_user]
    raises [NotFound]: [FetchedUser.convert] raises [BadArgument] with the
    text "User not found.", but the parameter is a [Union], whose failure
    the framework reports as [BadUnionArgument]; that is no [BadArgument],
    so [cog_command_error] sends nothing: the callback is not run, and
    neither the text nor an embed is sent. *)
Theorem user_not_found_unreported :
  let ctx := mod_context plain_bot in
  let w := mkWorld [] [] in
  let callback := λ _ : option User, ctx_send_embed (mkEmbed None None None None) in
  FetchedUser_convert ucd_excerpt ctx (Py.lit "123") w =
    (Raise user_not_found, mkWorld [] [FetchUser (Py.lit "123")])
  ∧ invoke_user_command ucd_excerpt sample_framework ctx (Py.lit "info") callback
      (Some (Py.lit "123")) w =
    (Raise (mkExn BadUnionArgument
              (Py.lit "Could not convert " ++ [34%N] ++ Py.lit "user" ++ [34%N] ++
               Py.lit " into Member or FetchedUser.")),
     mkWorld [] [FetchUser (Py.lit "123")]).
Proof. by vm_compute. Qed.

(** When the framework reports the failed parameter with an error that is
    no [BadArgument], the cog sends nothing. *)
Remark user_not_found_silent (ucd : Unicode) (fw : Framework) (ctx : Context)
    (callback : option User → Coro unit) (argument : Py.str) (w : World)
    (e1 e2 : Exn) :
  isdigit ucd argument = true →
  member_convert fw argument = inl e1 →
  fetch_user_of (bot ctx) argument = inl e2 →
  isinstance e2 NotFound = true →
  (∀ errors, isinstance (union_failed fw errors) BadArgument = false) →
  ∃ e, invoke_user_command ucd fw ctx (Py.lit "info") callback (Some argument) w =
    (Raise e, mkWorld (stored w) (log w ++ [FetchUser argument])).
Proof.
  intros Hdigit Hmember Hfetch Hnf Hunion.
  destruct (convert_member_or_fetched_not_found ucd fw ctx argument w e1 e2)
    as [e1' Hconv]; try done.
  unfold invoke_user_command, invoke, parse_user, bind.
  rewrite Hconv. unfold dispatch_error, bind, ret.
  rewrite cog_command_error_other by apply Hunion. by eexists.
Qed.

(** ** charinfo *)

Lemma split_on_app (sep : N) (p rest : Py.str) :
  sep ∉ p →
  Py.split_on sep (p ++ sep :: rest) = p :: Py.split_on sep rest.
Proof.
  induction p as [|c p IH]; simpl; intros Hp.
  - by rewrite decide_True.
  - apply not_elem_of_cons in Hp as [Hc Hp].
    rewrite decide_False by done. by rewrite IH.
Qed.

Lemma split_on_whole (sep : N) (p : Py.str) : sep ∉ p → Py.split_on sep p = [p].
Proof.
  induction p as [|c p IH]; simpl; intros Hp; [done|].
  apply not_elem_of_cons in Hp as [Hc Hp].
  rewrite decide_False by done. by rewrite IH.
Qed.

Lemma split_on_join (sep : N) (parts : list Py.str) :
  parts ≠ [] →
  Forall (λ p, sep ∉ p) parts →
  Py.split_on sep (Py.join [sep] parts) = parts.
Proof.
  intros Hne Hall. induction Hall as [|p parts Hp Hall IH]; [done|].
  destruct parts as [|q parts]; simpl.
  - by apply split_on_whole.
  - rewrite split_on_app by done. f_equal. by apply IH.
Qed.

Lemma hex_digits_no_newline (d : Hexadecimal.uint) : Py.NEWLINE ∉ Py.hex_digits d.
Proof.
  induction d; simpl; rewrite ?not_elem_of_cons;
    try (split; [done|]); try done; apply not_elem_of_nil.
Qed.

Lemma to_string_no_newline (ucd : Unicode) (c : N) :
  c ≠ Py.NEWLINE →
  Py.NEWLINE ∉ default (Py.lit "Name not found.") (unicode_name ucd c) →
  Py.NEWLINE ∉ to_string ucd c.
Proof.
  intros Hc Hname. unfold to_string, Py.format_rjust0, Py.format_x.
  rewrite !not_elem_of_app.
  repeat split;
    first [ apply hex_digits_no_newline
          | by apply (bool_decide_unpack _)
          | by intros [Heq _]%elem_of_replicate
          | done
          | idtac ].
  apply not_elem_of_cons. split; [done | apply not_elem_of_nil].
Qed.

(** When neither the characters nor their names hold a newline, the lines
    of the message are the reports: as many lines as characters. *)
Lemma charinfo_lines (ucd : Unicode) (characters : Py.str) (w : World) :
  characters ≠ [] →
  Py.NEWLINE ∉ characters →
  (∀ c name, unicode_name ucd c = Some name → Py.NEWLINE ∉ name) →
  ∃ msg,
    charinfo ucd characters w = (Return tt, mkWorld (stored w) (log w ++ [Send msg]))
    ∧ Py.split_on Py.NEWLINE msg = to_string ucd <$> characters
    ∧ length (Py.split_on Py.NEWLINE msg) = length characters.
Proof.
  intros Hne Hchars Hnames. eexists. split; [reflexivity|].
  assert (Py.split_on Py.NEWLINE (Py.join [Py.NEWLINE] (to_string ucd <$> characters))
          = to_string ucd <$> characters) as Hsplit.
  { apply split_on_join; [by destruct characters|].
    apply Forall_fmap, Forall_forall. intros c Hc. simpl.
    apply to_string_no_newline; [by intros -> |].
    destruct (unicode_name ucd c) as [name|] eqn:Hn; simpl; [by eapply Hnames|].
    by apply (bool_decide_unpack _). }
  split; [done|]. by rewrite Hsplit, length_fmap.
Qed.

Example charinfo_thirty_characters :
  ∃ msg,
    charinfo ucd_excerpt (Py.lit "AAAAAAAAAAAAAAAAAAAAAAAAAAAAAA") (mkWorld [] []) =
      (Return tt, mkWorld [] [Send msg])
    ∧ length (Py.split_on Py.NEWLINE msg) = 30.
Proof. eexists. split; [reflexivity | by vm_compute]. Qed.

(** C4 (as the code has it). When the character database names [A] LATIN
    CAPITAL LETTER A, [charinfo "A"] sends the one line below: it holds the
    code point as [\U00000041] and the name. *)
Theorem charinfo_A (ucd : Unicode) (w : World) :
  unicode_name ucd 65%N = Some (Py.lit "LATIN CAPITAL LETTER A") →
  let line :=
    Py.lit "`\U00000041`: LATIN CAPITAL LETTER A - A " ++ [Py.EM_DASH] ++
    Py.lit " <http://www.fileformat.info/info/unicode/char/41>" in
  charinfo ucd (Py.lit "A") w = (Return tt, mkWorld (stored w) (log w ++ [Send line]))
  ∧ Py.contains line (Py.lit "\U00000041") = true
  ∧ Py.contains line (Py.lit "LATIN CAPITAL LETTER A") = true.
Proof.
  intros Hname line. split; [|by vm_compute].
  assert (to_string ucd 65%N = line) as <-.
  { unfold to_string. rewrite Hname. reflexivity. }
  reflexivity.
Qed.

Lemma charinfo_A_witness :
  let line :=
    Py.lit "`\U00000041`: LATIN CAPITAL LETTER A - A " ++ [Py.EM_DASH] ++
    Py.lit " <http://www.fileformat.info/info/unicode/char/41>" in
  charinfo ucd_excerpt (Py.lit "A") (mkWorld [] []) =
    (Return tt, mkWorld [] ([] ++ [Send line]))
  ∧ Py.contains line (Py.lit "\U00000041") = true
  ∧ Py.contains line (Py.lit "LATIN CAPITAL LETTER A") = true.
Proof. apply (charinfo_A ucd_excerpt (mkWorld [] [])). reflexivity. Defined.

(** C4 fails as stated: the line sent for [A] does not hold [U+000041]. *)
Lemma charinfo_A_no_U_plus :
  ∃ line,
    charinfo ucd_excerpt (Py.lit "A") (mkWorld [] []) =
      (Return tt, mkWorld [] [Send line])
    ∧ Py.contains line (Py.lit "U+000041") = false
    ∧ Py.contains line (Py.lit "LATIN CAPITAL LETTER A") = true.
Proof. eexists. split; [reflexivity | by vm_compute]. Qed.

(** * More properties *)

(** ** The added string functions on samples *)

Example replace_guild :
  replace (Py.lit "guild") (Py.lit "server") (Py.lit "manage guild") =
  Py.lit "manage server".
Proof. reflexivity. Qed.

Example replace_does_not_overlap :
  replace (Py.lit "aa") (Py.lit "b") (Py.lit "aaaaa") = Py.lit "bba".
Proof. reflexivity. Qed.

Example replace_char_underscore :
  replace_char 95 (Py.lit " ") (Py.lit "read_message_history") =
  Py.lit "read message history".
Proof. reflexivity. Qed.

Example str_of_Z_negative : str_of_Z (-15) = Py.lit "-15" ∧ str_of_Z 0 = Py.lit "0".
Proof. split; reflexivity. Qed.

Example role_names_everyone :
  role_names [Py.lit "@everyone"] =
  [[AT_SIGN; ZERO_WIDTH_SPACE] ++ Py.lit "everyone"].
Proof. reflexivity. Qed.

(** ** Which prefixes are reserved *)

Lemma uint_digits_digit (d : Decimal.uint) : Forall is_digit (Py.uint_digits d).
Proof. induction d; simpl; constructor; unfold is_digit; try lia; done. Qed.

Lemma uint_digits_inj (d d' : Decimal.uint) :
  Py.uint_digits d = Py.uint_digits d' → d = d'.
Proof.
  revert d'. induction d; intros []; simpl; intros [=]; f_equal; auto.
Qed.

Lemma str_of_int_inj (n m : N) : Py.str_of_int n = Py.str_of_int m → n = m.
Proof.
  intros H. by apply DecimalN.Unsigned.to_uint_inj, uint_digits_inj.
Qed.

(** Two runs of digits, each followed by the same character that is no
    digit, are equal when the whole strings are. *)
Lemma digits_then_stop (d1 d2 r1 r2 : Py.str) (c : N) :
  Forall is_digit d1 → Forall is_digit d2 → ¬ is_digit c →
  d1 ++ c :: r1 = d2 ++ c :: r2 → d1 = d2.
Proof.
  intros H1. revert d2. induction H1 as [|x d1 Hx H1 IH]; intros d2 H2 Hc Heq.
  - destruct H2 as [|y d2 Hy H2]; [done|].
    simplify_eq/=. by destruct Hc.
  - destruct H2 as [|y d2 Hy H2]; simplify_eq/=; [by destruct Hc|].
    f_equal. by eapply IH.
Qed.

Lemma digits_head_not (d r r' : Py.str) (c x : N) :
  Forall is_digit d → ¬ is_digit x → x ≠ c → d ++ c :: r = x :: r' → False.
Proof.
  intros Hd Hx Hc Heq. destruct Hd as [|y d Hy Hd]; simplify_eq/=; by auto.
Qed.

Lemma mention_unfold (user_id : N) (rest : Py.str) :
  mention user_id ++ rest = 60%N :: 64%N :: Py.str_of_int user_id ++ 62%N :: rest.
Proof. unfold mention. by rewrite <- !app_assoc. Qed.

Lemma mention_nick_unfold (user_id : N) (rest : Py.str) :
  mention_nick user_id ++ rest =
  60%N :: 64%N :: 33%N :: Py.str_of_int user_id ++ 62%N :: rest.
Proof. unfold mention_nick. by rewrite <- !app_assoc. Qed.

Lemma not_digit_62 : ¬ is_digit 62%N.
Proof. unfold is_digit. lia. Qed.

Lemma not_digit_33 : ¬ is_digit 33%N.
Proof. unfold is_digit. lia. Qed.

(** X1. [Prefix.convert] returns its argument, with no effect, exactly when
    the argument begins with neither mention form of the bot's own id. *)
Theorem Prefix_convert_accepts_iff (ctx : Context) (argument : Py.str) (w : World) :
  Prefix_convert ctx argument w = (Return argument, w)
  ↔ ¬ ∃ rest, argument = mention (bot_user_id (bot ctx)) ++ rest
            ∨ argument = mention_nick (bot_user_id (bot ctx)) ++ rest.
Proof.
  rewrite Prefix_convert_run. split.
  - intros Hrun [rest [-> | ->]]; rewrite startswith_app in Hrun;
      by rewrite ?orb_true_r in Hrun.
  - intros Hnot.
    destruct (Py.startswith argument (mention _)) eqn:E1.
    { apply startswith_inv in E1 as [rest ->]. destruct Hnot. eauto. }
    destruct (Py.startswith argument (mention_nick _)) eqn:E2; [|done].
    apply startswith_inv in E2 as [rest ->]. destruct Hnot. eauto.
Qed.

(** X2. Only the bot's own id is reserved: a string that begins with a
    mention form of any other id is returned by [Prefix.convert] as it is. *)
Theorem Prefix_convert_other_mention (ctx : Context) (other : N) (rest : Py.str)
    (w : World) :
  other ≠ bot_user_id (bot ctx) →
  Prefix_convert ctx (mention other ++ rest) w = (Return (mention other ++ rest), w)
  ∧ Prefix_convert ctx (mention_nick other ++ rest) w =
      (Return (mention_nick other ++ rest), w).
Proof.
  intros Hother.
  pose proof (uint_digits_digit (N.to_uint other)) as Hd1.
  pose proof (uint_digits_digit (N.to_uint (bot_user_id (bot ctx)))) as Hd2.
  split; apply Prefix_convert_accepts; intros rest';
    rewrite ?mention_unfold, ?mention_nick_unfold; intros Heq; simplify_eq/=.
  - apply Hother, str_of_int_inj.
    eapply digits_then_stop; [exact Hd1 | exact Hd2 | apply not_digit_62 | done].
  - eapply (digits_head_not (Py.str_of_int other) _ _ 62%N 33%N);
      [exact Hd1 | apply not_digit_33 | done | done].
  - eapply (digits_head_not (Py.str_of_int (bot_user_id (bot ctx))) _ _ 62%N 33%N);
      [exact Hd2 | apply not_digit_33 | done | done].
  - apply Hother, str_of_int_inj.
    eapply digits_then_stop; [exact Hd1 | exact Hd2 | apply not_digit_62 | done].
Qed.

Lemma Prefix_convert_other_mention_witness :
  Prefix_convert (mod_context plain_bot) (mention 42 ++ Py.lit "!") (mkWorld [] []) =
    (Return (mention 42 ++ Py.lit "!"), mkWorld [] [])
  ∧ Prefix_convert (mod_context plain_bot) (mention_nick 42 ++ Py.lit "!")
      (mkWorld [] []) =
    (Return (mention_nick 42 ++ Py.lit "!"), mkWorld [] []).
Proof.
  apply (Prefix_convert_other_mention (mod_context plain_bot) 42 (Py.lit "!")
           (mkWorld [] [])).
  vm_compute. discriminate.
Defined.

(** ** The prefix commands, continued *)

Ltac run_invoke :=
  cbv beta iota delta
    [invoke_prefix_add invoke_prefix_remove invoke_prefix_clear invoke
     parse_single actual_conversion wrap_callback dispatch_error bind ret raise].

(** X3. [prefix add] with more than one word, the first of which is no
    reserved prefix: the author gets the hint to quote the prefix, the
    setter is not called and the stored list is as before. *)
Theorem prefix_add_too_many (fw : Framework) (ctx : Context) (a b : Py.str)
    (more : list Py.str) (w : World) :
  author_is_mod ctx = true →
  Py.startswith_any a
    [mention (bot_user_id (bot ctx)); mention_nick (bot_user_id (bot ctx))] = false →
  invoke_prefix_add fw ctx (a :: b :: more) w =
    (Raise (too_many_arguments (Py.lit "prefix add")),
     mkWorld (stored w)
       (log w ++ [Send (Py.lit
          "You've given too many prefixes. Either quote it or only do it one by one.")])).
Proof.
  intros Hmod Hok. run_invoke. unfold Prefix_convert. by rewrite Hmod, Hok.
Qed.

Lemma prefix_add_too_many_witness :
  invoke_prefix_add sample_framework (mod_context plain_bot)
    [Py.lit "hello"; Py.lit "world"] (mkWorld [Py.lit "!"] []) =
    (Raise (too_many_arguments (Py.lit "prefix add")),
     mkWorld [Py.lit "!"]
       ([] ++ [Send (Py.lit
          "You've given too many prefixes. Either quote it or only do it one by one.")])).
Proof.
  apply (prefix_add_too_many sample_framework (mod_context plain_bot)
           (Py.lit "hello") (Py.lit "world") [] (mkWorld [Py.lit "!"] []));
    reflexivity.
Defined.

(** X4. [prefix remove] with more than one word, the first of which is no
    reserved prefix, fails without any reply from the cog: nothing is sent,
    the setter is not called and the stored list is as before. *)
Theorem prefix_remove_too_many (fw : Framework) (ctx : Context) (a b : Py.str)
    (more : list Py.str) (w : World) :
  author_is_mod ctx = true →
  Py.startswith_any a
    [mention (bot_user_id (bot ctx)); mention_nick (bot_user_id (bot ctx))] = false →
  invoke_prefix_remove fw ctx (a :: b :: more) w =
    (Raise (too_many_arguments (Py.lit "prefix remove")), w).
Proof.
  intros Hmod Hok. run_invoke. unfold Prefix_convert. by rewrite Hmod, Hok.
Qed.

Lemma prefix_remove_too_many_witness :
  invoke_prefix_remove sample_framework (mod_context plain_bot)
    [Py.lit "hello"; Py.lit "world"] (mkWorld [Py.lit "hello"] []) =
    (Raise (too_many_arguments (Py.lit "prefix remove")), mkWorld [Py.lit "hello"] []).
Proof.
  apply (prefix_remove_too_many sample_framework (mod_context plain_bot)
           (Py.lit "hello") (Py.lit "world") [] (mkWorld [Py.lit "hello"] []));
    reflexivity.
Defined.

(** X5. When the author does not pass [checks.is_mod()], [prefix add],
    [prefix remove] and [prefix clear] do nothing at all, whatever the
    arguments: no reply, no call of the setter, the stored list as before. *)
Theorem prefix_commands_need_mod (fw : Framework) (ctx : Context)
    (words : list Py.str) (w : World) :
  author_is_mod ctx = false →
  invoke_prefix_add fw ctx words w = (Raise (check_failure (Py.lit "prefix add")), w)
  ∧ invoke_prefix_remove fw ctx words w =
      (Raise (check_failure (Py.lit "prefix remove")), w)
  ∧ invoke_prefix_clear ctx w = (Raise (check_failure (Py.lit "prefix clear")), w).
Proof. intros Hmod. run_invoke. by rewrite Hmod. Qed.

Lemma prefix_commands_need_mod_witness :
  let ctx := mkContext plain_bot sample_tick false in
  let w := mkWorld [Py.lit "!"] [] in
  invoke_prefix_add sample_framework ctx [Py.lit "?"] w =
    (Raise (check_failure (Py.lit "prefix add")), w)
  ∧ invoke_prefix_remove sample_framework ctx [Py.lit "?"] w =
      (Raise (check_failure (Py.lit "prefix remove")), w)
  ∧ invoke_prefix_clear ctx w = (Raise (check_failure (Py.lit "prefix clear")), w).
Proof.
  apply (prefix_commands_need_mod sample_framework
           (mkContext plain_bot sample_tick false) [Py.lit "?"]
           (mkWorld [Py.lit "!"] [])).
  reflexivity.
Defined.

Lemma remove_first_elem (x : Py.str) (l : list Py.str) :
  x ∈ l → ∃ l1 l2, l = l1 ++ (x :: l2) ∧ (x ∉ l1) ∧ remove_first x l = Some (l1 ++ l2).
Proof.
  induction l as [|y l IH]; intros Hin; [by apply elem_of_nil in Hin|].
  simpl. destruct (decide (y = x)) as [->|Hne].
  - exists [], l. split; [done|]. split; [apply not_elem_of_nil | done].
  - apply elem_of_cons in Hin as [->|Hin]; [done|].
    destruct (IH Hin) as (l1 & l2 & -> & Hl1 & ->).
    exists (y :: l1), l2. split; [done|]. split; [|done].
    apply not_elem_of_cons. by split.
Qed.

Lemma remove_first_snoc (x : Py.str) (l : list Py.str) :
  x ∉ l → remove_first x (l ++ [x]) = Some l.
Proof.
  induction l as [|y l IH]; simpl; intros Hx.
  - by rewrite decide_True.
  - apply not_elem_of_cons in Hx as [Hne Hx].
    rewrite decide_False by done. by rewrite IH.
Qed.

(** X6. [prefix remove] of a string that is in the list: the setter gets
    the list without the first occurrence of the string, the other entries
    in their order, and one reply follows: the success tick when the setter
    returns, the failure tick, a space and the text of the setter's
    exception when it raises. *)
Theorem prefix_remove_present (ctx : Context) (prefix : Py.str) (w : World) :
  prefix ∈ raw_list ctx w →
  ∃ l1 l2,
    raw_list ctx w = l1 ++ (prefix :: l2) ∧ (prefix ∉ l1)
    ∧ let l := l1 ++ l2 in
      let s := match raw_guild_prefixes_of (bot ctx) (stored w) with
               | StoreObject => l
               | LocalList _ => stored w
               end in
      prefix_remove ctx prefix w =
        match set_guild_prefixes_of (bot ctx) s l with
        | inr s' =>
            (Return tt,
             mkWorld s' (log w ++ [SetGuildPrefixes l; Send (tick ctx true)]))
        | inl e =>
            (Return tt,
             mkWorld s (log w ++ [SetGuildPrefixes l;
                                  Send (tick ctx false ++ Py.lit " " ++ exn_text e)]))
        end.
Proof.
  intros Hin. destruct (remove_first_elem _ _ Hin) as (l1 & l2 & Hl & Hl1 & Hrm).
  exists l1, l2. split; [done|]. split; [done|].
  unfold prefix_remove, raw_list in *. run_coro. rewrite Hrm.
  destruct (raw_guild_prefixes_of (bot ctx) (stored w)) as [|l]; simpl;
    match goal with
    | |- context [set_guild_prefixes_of ?b ?s ?l] =>
        destruct (set_guild_prefixes_of b s l) as [e|s']
    end; simpl; rewrite ?isinstance_Exception, <- ?app_assoc; reflexivity.
Qed.

Lemma prefix_remove_present_witness :
  ∃ l1 l2,
    [Py.lit "!"; Py.lit "?"; Py.lit "!"] = l1 ++ (Py.lit "!" :: l2) ∧ (Py.lit "!" ∉ l1)
    ∧ prefix_remove (mod_context failing_bot) (Py.lit "!")
        (mkWorld [Py.lit "!"; Py.lit "?"; Py.lit "!"] []) =
        (Return tt,
         mkWorld (l1 ++ l2)
           ([] ++ [SetGuildPrefixes (l1 ++ l2);
                   Send (sample_tick false ++ Py.lit " " ++
                         Py.lit "database is locked")])).
Proof.
  apply (prefix_remove_present (mod_context failing_bot) (Py.lit "!")
           (mkWorld [Py.lit "!"; Py.lit "?"; Py.lit "!"] [])).
  apply list_elem_of_here.
Defined.

(** *** A bot that stores what it is given *)

Lemma prefix_add_storing (ctx : Context) (prefix : Py.str) (w : World) :
  (∀ s, ref_list (raw_guild_prefixes_of (bot ctx) s) s = s) →
  (∀ s l, set_guild_prefixes_of (bot ctx) s l = inr l) →
  prefix_add ctx prefix w =
    (Return tt,
     mkWorld (stored w ++ [prefix])
       (log w ++ [SetGuildPrefixes (stored w ++ [prefix]); Send (tick ctx true)])).
Proof.
  intros Hraw Hset. specialize (Hraw (stored w)).
  unfold prefix_add. run_coro.
  destruct (raw_guild_prefixes_of (bot ctx) (stored w)) as [|l]; simpl in *;
    subst; rewrite Hset; simpl; by rewrite <- app_assoc.
Qed.

Lemma prefix_remove_storing (ctx : Context) (prefix : Py.str) (w : World)
    (l' : list Py.str) :
  (∀ s, ref_list (raw_guild_prefixes_of (bot ctx) s) s = s) →
  (∀ s l, set_guild_prefixes_of (bot ctx) s l = inr l) →
  remove_first prefix (stored w) = Some l' →
  prefix_remove ctx prefix w =
    (Return tt,
     mkWorld l' (log w ++ [SetGuildPrefixes l'; Send (tick ctx true)])).
Proof.
  intros Hraw Hset Hrm. specialize (Hraw (stored w)).
  unfold prefix_remove. run_coro.
  destruct (raw_guild_prefixes_of (bot ctx) (stored w)) as [|l]; simpl in *;
    subst; rewrite Hrm; simpl; rewrite Hset; simpl; by rewrite <- app_assoc.
Qed.

Lemma prefix_clear_storing (ctx : Context) (w : World) :
  (∀ s l, set_guild_prefixes_of (bot ctx) s l = inr l) →
  prefix_clear ctx w =
    (Return tt, mkWorld [] (log w ++ [SetGuildPrefixes []; Send (tick ctx true)])).
Proof.
  intros Hset. unfold prefix_clear. run_coro. rewrite Hset. simpl.
  by rewrite <- app_assoc.
Qed.

(** X7. With a bot whose raw getter returns what is stored and whose setter
    stores what it is given, [prefix add] of a new string followed by
    [prefix remove] of the same string leaves the stored list as it was;
    both reply with the success tick. *)
Theorem prefix_add_then_remove (ctx : Context) (prefix : Py.str) (w : World) :
  (∀ s, ref_list (raw_guild_prefixes_of (bot ctx) s) s = s) →
  (∀ s l, set_guild_prefixes_of (bot ctx) s l = inr l) →
  prefix ∉ stored w →
  (prefix_add ctx prefix ;; prefix_remove ctx prefix) w =
    (Return tt,
     mkWorld (stored w)
       (log w ++ [SetGuildPrefixes (stored w ++ [prefix]); Send (tick ctx true);
                  SetGuildPrefixes (stored w); Send (tick ctx true)])).
Proof.
  intros Hraw Hset Hnew. unfold bind.
  rewrite prefix_add_storing by done.
  rewrite (prefix_remove_storing ctx prefix _ (stored w)); try done.
  - simpl. by rewrite <- app_assoc.
  - by apply remove_first_snoc.
Qed.

Lemma prefix_add_then_remove_witness :
  (prefix_add (mod_context plain_bot) (Py.lit "?") ;;
   prefix_remove (mod_context plain_bot) (Py.lit "?")) (mkWorld [Py.lit "!"] []) =
    (Return tt,
     mkWorld [Py.lit "!"]
       ([] ++ [SetGuildPrefixes ([Py.lit "!"] ++ [Py.lit "?"]); Send (sample_tick true);
               SetGuildPrefixes [Py.lit "!"]; Send (sample_tick true)])).
Proof.
  apply (prefix_add_then_remove (mod_context plain_bot) (Py.lit "?")
           (mkWorld [Py.lit "!"] [])).
  - intros s. reflexivity.
  - intros s l. reflexivity.
  - apply (bool_decide_unpack _). vm_compute. exact I.
Defined.

(** X8. With such a bot, after [prefix clear] nothing is registered:
    [prefix clear] hands the empty list to the setter whatever was stored,
    and a [prefix remove] that follows finds no prefix to remove. *)
Theorem prefix_clear_then_remove (ctx : Context) (prefix : Py.str) (w : World) :
  (∀ s, ref_list (raw_guild_prefixes_of (bot ctx) s) s = s) →
  (∀ s l, set_guild_prefixes_of (bot ctx) s l = inr l) →
  (prefix_clear ctx ;; prefix_remove ctx prefix) w =
    (Return tt,
     mkWorld []
       (log w ++ [SetGuildPrefixes []; Send (tick ctx true);
                  Send (Py.lit "I do not have this prefix registered.")])).
Proof.
  intros Hraw Hset. unfold bind. rewrite prefix_clear_storing by done.
  unfold prefix_remove. run_coro. rewrite (Hraw []). simpl.
  by rewrite <- app_assoc.
Qed.

Lemma prefix_clear_then_remove_witness :
  (prefix_clear (mod_context plain_bot) ;;
   prefix_remove (mod_context plain_bot) (Py.lit "!"))
    (mkWorld [Py.lit "!"; Py.lit "?"] []) =
    (Return tt,
     mkWorld []
       ([] ++ [SetGuildPrefixes []; Send (sample_tick true);
               Send (Py.lit "I do not have this prefix registered.")])).
Proof.
  apply (prefix_clear_then_remove (mod_context plain_bot) (Py.lit "!")
           (mkWorld [Py.lit "!"; Py.lit "?"] [])).
  - intros s. reflexivity.
  - intros s l. reflexivity.
Defined.

(** *** The list object and the store *)

(** X9. When [get_raw_guild_prefixes] hands out the stored list object and
    the setter raises, [prefix add] reports the failure, yet the stored
    list has the new string at its end: the append was done on the stored
    object before the setter was called. *)
Theorem prefix_add_failed_keeps_append (ctx : Context) (prefix : Py.str) (w : World)
    (e : Exn) :
  raw_guild_prefixes_of (bot ctx) (stored w) = StoreObject →
  set_guild_prefixes_of (bot ctx) (stored w ++ [prefix]) (stored w ++ [prefix]) = inl e →
  prefix_add ctx prefix w =
    (Return tt,
     mkWorld (stored w ++ [prefix])
       (log w ++ [SetGuildPrefixes (stored w ++ [prefix]);
                  Send (tick ctx false ++ Py.lit " " ++ exn_text e)])).
Proof.
  intros Hraw Hfail. unfold prefix_add. run_coro. rewrite Hraw. simpl.
  rewrite Hfail. simpl. by rewrite isinstance_Exception, <- app_assoc.
Qed.

Lemma prefix_add_failed_keeps_append_witness :
  prefix_add (mod_context failing_bot) (Py.lit "?") (mkWorld [Py.lit "!"] []) =
    (Return tt,
     mkWorld ([Py.lit "!"] ++ [Py.lit "?"])
       ([] ++ [SetGuildPrefixes ([Py.lit "!"] ++ [Py.lit "?"]);
               Send (sample_tick false ++ Py.lit " " ++ Py.lit "database is locked")])).
Proof.
  apply (prefix_add_failed_keeps_append (mod_context failing_bot) (Py.lit "?")
           (mkWorld [Py.lit "!"] [])
           (mkExn Exception (Py.lit "database is locked"))); reflexivity.
Defined.

(** X10. When [get_guild_prefixes] hands out the stored list object, every
    successful [prefix] removes the entry at index 1 from the stored list:
    the deletion made for the display is done on the stored object. *)
Theorem prefix_deletes_from_store (ctx : Context) (w : World) :
  guild_prefixes_of (bot ctx) (stored w) = StoreObject →
  2 ≤ length (stored w) →
  ∃ e, prefix ctx w =
    (Return tt, mkWorld (delete 1 (stored w)) (log w ++ [SendEmbed e])).
Proof.
  intros Hobj Hlen. rewrite prefix_run. unfold shown_list. rewrite Hobj. simpl.
  rewrite decide_True by lia. by eexists.
Qed.

Lemma prefix_deletes_from_store_witness :
  ∃ e, prefix (mod_context aliasing_bot)
         (mkWorld [Py.lit "!"; Py.lit "?"; Py.lit "$"] []) =
    (Return tt, mkWorld (delete 1 [Py.lit "!"; Py.lit "?"; Py.lit "$"])
                  ([] ++ [SendEmbed e])).
Proof.
  apply (prefix_deletes_from_store (mod_context aliasing_bot)
           (mkWorld [Py.lit "!"; Py.lit "?"; Py.lit "$"] [])).
  - reflexivity.
  - simpl. lia.
Defined.

(** X11. When the setter raises on the extended list, [prefix add] does not
    fail: it replies with the failure tick, a space and the error text. *)
Theorem prefix_add_echoes_failure (ctx : Context) (prefix : Py.str) (w : World)
    (e : Exn) :
  (∀ s, set_guild_prefixes_of (bot ctx) s (raw_list ctx w ++ [prefix]) = inl e) →
  ∃ s, prefix_add ctx prefix w =
    (Return tt,
     mkWorld s (log w ++ [SetGuildPrefixes (raw_list ctx w ++ [prefix]);
                          Send (tick ctx false ++ Py.lit " " ++ exn_text e)])).
Proof.
  intros Hfail. unfold prefix_add, raw_list in *. run_coro.
  destruct (raw_guild_prefixes_of (bot ctx) (stored w)) as [|l]; simpl in *;
    rewrite Hfail; simpl; rewrite isinstance_Exception, <- app_assoc; simpl;
    by eexists.
Qed.

Lemma prefix_add_echoes_failure_witness :
  ∃ s, prefix_add (mod_context failing_bot) (Py.lit "?") (mkWorld [Py.lit "!"] []) =
    (Return tt,
     mkWorld s ([] ++ [SetGuildPrefixes ([Py.lit "!"] ++ [Py.lit "?"]);
                       Send (sample_tick false ++ Py.lit " " ++
                             Py.lit "database is locked")])).
Proof.
  apply (prefix_add_echoes_failure (mod_context failing_bot) (Py.lit "?")
           (mkWorld [Py.lit "!"] [])
           (mkExn Exception (Py.lit "database is locked"))).
  intros s. reflexivity.
Defined.

(** X12. When the setter raises on the shortened list, [prefix remove] does
    not fail: it replies with the failure tick, a space and the error
    text. *)
Theorem prefix_remove_echoes_failure (ctx : Context) (prefix : Py.str) (w : World)
    (l : list Py.str) (e : Exn) :
  remove_first prefix (raw_list ctx w) = Some l →
  (∀ s, set_guild_prefixes_of (bot ctx) s l = inl e) →
  ∃ s, prefix_remove ctx prefix w =
    (Return tt,
     mkWorld s (log w ++ [SetGuildPrefixes l;
                          Send (tick ctx false ++ Py.lit " " ++ exn_text e)])).
Proof.
  intros Hl Hfail. unfold prefix_remove, raw_list in *. run_coro. rewrite Hl.
  destruct (raw_guild_prefixes_of (bot ctx) (stored w)) as [|l0]; simpl;
    rewrite Hfail; simpl; rewrite isinstance_Exception, <- app_assoc; simpl;
    by eexists.
Qed.

Lemma prefix_remove_echoes_failure_witness :
  ∃ s, prefix_remove (mod_context failing_bot) (Py.lit "!")
         (mkWorld [Py.lit "!"; Py.lit "?"] []) =
    (Return tt,
     mkWorld s ([] ++ [SetGuildPrefixes [Py.lit "?"];
                       Send (sample_tick false ++ Py.lit " " ++
                             Py.lit "database is locked")])).
Proof.
  apply (prefix_remove_echoes_failure (mod_context failing_bot) (Py.lit "!")
           (mkWorld [Py.lit "!"; Py.lit "?"] []) [Py.lit "?"]
           (mkExn Exception (Py.lit "database is locked"))).
  - reflexivity.
  - intros s. reflexivity.
Defined.

(** ** FetchedUser, continued *)

(** X13. [FetchedUser.convert] never touches the stored list, calls
    [fetch_user] exactly when the argument is a string of digits, and then
    once; a user it returns is the one fetched, and an exception it raises
    is a [BadArgument] unless [fetch_user] raised something that is no
    [HTTPException], which is passed on as it is. *)
Theorem FetchedUser_convert_outcomes (ucd : Unicode) (ctx : Context)
    (argument : Py.str) (w : World) :
  ∃ r calls,
    FetchedUser_convert ucd ctx argument w = (r, mkWorld (stored w) (log w ++ calls))
    ∧ calls = (if isdigit ucd argument then [FetchUser argument] else [])
    ∧ (isdigit ucd argument = false →
       r = Raise (mkExn BadArgument (Py.lit "Not a valid user ID.")))
    ∧ (∀ u, r = Return u → fetch_user_of (bot ctx) argument = inr u)
    ∧ (∀ e, r = Raise e →
       exn_class e = BadArgument
       ∨ (fetch_user_of (bot ctx) argument = inl e ∧ isinstance e HTTPException = false)).
Proof.
  unfold FetchedUser_convert, fetch_user. destruct (isdigit ucd argument); simpl.
  - run_coro. destruct (fetch_user_of (bot ctx) argument) as [e|u]; simpl.
    + destruct (isinstance e NotFound) eqn:Hnf;
        [|destruct (isinstance e HTTPException) eqn:Hhttp];
        eexists _, _; (split; [reflexivity|]); (split; [done|]);
        (split; [done|]); (split; [done|]); intros e' [= <-]; simpl; eauto.
    + eexists _, _. split; [reflexivity|]. split; [done|]. split; [done|].
      split; [by intros u' [= <-] | done].
  - exists (Raise (mkExn BadArgument (Py.lit "Not a valid user ID."))), [].
    unfold raise. rewrite app_nil_r. destruct w. simpl.
    split; [done|]. split; [done|]. split; [done|].
    split; [done | intros e [= <-]; by left].
Qed.

Lemma FetchedUser_convert_outcomes_witness :
  FetchedUser_convert ucd_excerpt (mod_context plain_bot) (Py.lit "12a")
    (mkWorld [Py.lit "!"] []) =
    (Raise (mkExn BadArgument (Py.lit "Not a valid user ID.")),
     mkWorld [Py.lit "!"] []).
Proof.
  destruct (FetchedUser_convert_outcomes ucd_excerpt (mod_context plain_bot)
              (Py.lit "12a") (mkWorld [Py.lit "!"] []))
    as (r & calls & Hrun & Hcalls & Hnot & _).
  rewrite Hrun, Hcalls, (Hnot eq_refl). reflexivity.
Defined.

(** ** charinfo, continued *)

(** X14. For a non-empty string without newline, and names without
    newline, the message of [charinfo], split at its newlines, is the list
    of the reports: as many lines as characters. *)
Theorem charinfo_one_line_each (ucd : Unicode) (characters : Py.str) (w : World) :
  characters ≠ [] →
  Py.NEWLINE ∉ characters →
  (∀ c name, unicode_name ucd c = Some name → Py.NEWLINE ∉ name) →
  ∃ msg,
    charinfo ucd characters w = (Return tt, mkWorld (stored w) (log w ++ [Send msg]))
    ∧ Py.split_on Py.NEWLINE msg = to_string ucd <$> characters
    ∧ length (Py.split_on Py.NEWLINE msg) = length characters.
Proof.
  intros Hne Hchars Hnames. eexists. split; [reflexivity|].
  assert (Py.split_on Py.NEWLINE (Py.join [Py.NEWLINE] (to_string ucd <$> characters))
          = to_string ucd <$> characters) as Hsplit.
  { apply split_on_join; [by destruct characters|].
    apply Forall_fmap, Forall_forall. intros c Hc. simpl.
    apply to_string_no_newline; [by intros -> |].
    destruct (unicode_name ucd c) as [name|] eqn:Hn; simpl; [by eapply Hnames|].
    by apply (bool_decide_unpack _). }
  split; [done|]. by rewrite Hsplit, length_fmap.
Qed.

Lemma charinfo_one_line_each_witness :
  ∃ msg,
    charinfo ucd_excerpt (Py.lit "AB") (mkWorld [] []) =
      (Return tt, mkWorld [] ([] ++ [Send msg]))
    ∧ Py.split_on Py.NEWLINE msg = to_string ucd_excerpt <$> Py.lit "AB"
    ∧ length (Py.split_on Py.NEWLINE msg) = length (Py.lit "AB").
Proof.
  apply (charinfo_one_line_each ucd_excerpt (Py.lit "AB") (mkWorld [] [])).
  - discriminate.
  - apply (bool_decide_unpack _). vm_compute. exact I.
  - intros c name. simpl. destruct (decide (c = 65%N)); [|discriminate].
    intros [= <-]. apply (bool_decide_unpack _). vm_compute. exact I.
Defined.

(** ** serverinfo: the channel counters *)

Lemma count_if_cons {A} (p : A → bool) (x : A) (l : list A) :
  count_if p (x :: l) = (if p x then 1 else 0) + count_if p l.
Proof.
  unfold count_if. rewrite filter_cons.
  destruct (p x); [by rewrite decide_True | by rewrite decide_False].
Qed.

Lemma count_if_le {A} (p q : A → bool) (l : list A) :
  (∀ x, p x = true → q x = true) → count_if p l ≤ count_if q l.
Proof.
  intros Hpq. induction l as [|x l IH]; [done|].
  rewrite !count_if_cons. specialize (Hpq x).
  destruct (p x), (q x); simpl; first [lia | by specialize (Hpq eq_refl)].
Qed.

Lemma counter_get_incr (k t : ChannelType) (c : gmap ChannelType nat) :
  counter_get (counter_incr k c) t =
  counter_get c t + (if bool_decide (k = t) then 1 else 0).
Proof.
  unfold counter_get, counter_incr. rewrite lookup_insert.
  case_bool_decide; case_decide; simplify_eq/=; rewrite ?Nat.add_0_r; done.
Qed.

Lemma count_channel_step (flags : PermissionFlags) (everyone_perms : Z)
    (secret totals : gmap ChannelType nat) (channel : Channel) :
  count_channel flags everyone_perms (secret, totals) channel =
  (if locked flags everyone_perms channel
   then counter_incr (channel_type channel) secret else secret,
   counter_incr (channel_type channel) totals).
Proof.
  unfold count_channel, locked.
  destruct (has_flag _ (read_messages flags)); simpl; [|done].
  destruct (bool_decide _); simpl; [|done].
  by destruct (has_flag _ (connect flags)), (has_flag _ (speak flags)).
Qed.

Lemma count_channels_from (flags : PermissionFlags) (everyone_perms : Z)
    (channels : list Channel) (secret totals : gmap ChannelType nat) (t : ChannelType) :
  counter_get (foldl (count_channel flags everyone_perms) (secret, totals) channels).2 t
    = counter_get totals t
      + count_if (λ ch, bool_decide (channel_type ch = t)) channels
  ∧ counter_get (foldl (count_channel flags everyone_perms) (secret, totals) channels).1 t
    = counter_get secret t
      + count_if (λ ch, bool_decide (channel_type ch = t)
                        && locked flags everyone_perms ch) channels.
Proof.
  revert secret totals. induction channels as [|ch channels IH]; intros secret totals.
  - unfold count_if. simpl. lia.
  - cbn [foldl]. rewrite count_channel_step, !count_if_cons.
    destruct (IH (if locked flags everyone_perms ch
                  then counter_incr (channel_type ch) secret else secret)
                 (counter_incr (channel_type ch) totals)) as [-> ->].
    rewrite counter_get_incr.
    destruct (locked flags everyone_perms ch); rewrite ?counter_get_incr;
      destruct (bool_decide (channel_type ch = t)); simpl; lia.
Qed.

Lemma counter_get_empty (t : ChannelType) : counter_get ∅ t = 0.
Proof. unfold counter_get. by rewrite lookup_empty. Qed.

(** X15. After the loop of [serverinfo] over the channels, [totals] holds
    for every channel class the number of channels of that class, so the
    four totals add up to the number of channels. *)
Theorem count_channels_totals (flags : PermissionFlags) (everyone_perms : Z)
    (channels : list Channel) :
  let totals := (count_channels flags everyone_perms channels).2 in
  (∀ t, counter_get totals t =
        count_if (λ ch, bool_decide (channel_type ch = t)) channels)
  ∧ counter_get totals TextChannel + counter_get totals VoiceChannel
    + counter_get totals CategoryChannel + counter_get totals StoreChannel
    = length channels.
Proof.
  assert (∀ t, counter_get (count_channels flags everyone_perms channels).2 t =
               count_if (λ ch, bool_decide (channel_type ch = t)) channels) as Htot.
  { intros t. unfold count_channels.
    destruct (count_channels_from flags everyone_perms channels ∅ ∅ t) as [-> _].
    by rewrite counter_get_empty. }
  split; [done|]. simpl. rewrite !Htot. clear Htot.
  induction channels as [|ch channels IH]; [done|].
  rewrite !count_if_cons. simpl. destruct (channel_type ch); simpl; lia.
Qed.

(** X16. After the loop, [secret] holds for every channel class the number
    of channels of that class that everyone cannot read, or, for voice
    channels, cannot read, connect to or speak in; it never exceeds the
    total of the class. *)
Theorem count_channels_secret (flags : PermissionFlags) (everyone_perms : Z)
    (channels : list Channel) (t : ChannelType) :
  let '(secret, totals) := count_channels flags everyone_perms channels in
  counter_get secret t =
    count_if (λ ch, bool_decide (channel_type ch = t)
                    && locked flags everyone_perms ch) channels
  ∧ counter_get secret t ≤ counter_get totals t.
Proof.
  destruct (count_channels_from flags everyone_perms channels ∅ ∅ t) as [Htot Hsec].
  unfold count_channels.
  destruct (foldl _ _ channels) as [secret totals]. simpl in *.
  rewrite Htot, Hsec, !counter_get_empty. simpl. split; [done|].
  apply count_if_le. by intros ch [? _]%andb_prop.
Qed.

(** X17. A channel for which the pair of everyone's overwrite has reading
    in its allow mask, and for a voice channel also connecting and
    speaking, is not counted as secret, whatever the base permissions and
    whatever else the overwrite denies: when all channels are so, every
    secret count is 0. (The masks are those of a pair: no bit in both.) *)
Theorem count_channels_allowed (flags : PermissionFlags) (everyone_perms : Z)
    (channels : list Channel) (t : ChannelType) :
  Forall (λ ch, Z.land (allow_value ch) (deny_value ch) = 0%Z
                ∧ has_flag (allow_value ch) (read_messages flags) = true
                ∧ (channel_type ch = VoiceChannel →
                   has_flag (allow_value ch) (connect flags) = true
                   ∧ has_flag (allow_value ch) (speak flags) = true)) channels →
  counter_get (count_channels flags everyone_perms channels).1 t = 0.
Proof.
  intros Hall. unfold count_channels.
  destruct (count_channels_from flags everyone_perms channels ∅ ∅ t) as [_ ->].
  rewrite counter_get_empty. simpl.
  induction Hall as [|ch channels (_ & Hread & Hvoice) Hall IH]; [done|].
  rewrite count_if_cons, IH. unfold locked.
  rewrite (has_flag_allowed _ _ _ Hread). simpl.
  destruct (bool_decide (channel_type ch = t)); simpl; [|done].
  destruct (decide (channel_type ch = VoiceChannel)) as [Hv|Hv].
  - destruct (Hvoice Hv) as [Hc Hs].
    rewrite (has_flag_allowed _ _ _ Hc), (has_flag_allowed _ _ _ Hs). simpl.
    by rewrite andb_false_r.
  - by rewrite bool_decide_eq_false_2.
Qed.

Lemma count_channels_allowed_witness :
  counter_get
    (count_channels discord_flags 0
       [overwrite_channel known_flags TextChannel 1024 2048;
        overwrite_channel known_flags VoiceChannel 3146752 2048]).1
    VoiceChannel = 0.
Proof.
  apply (count_channels_allowed discord_flags 0
           [overwrite_channel known_flags TextChannel 1024 2048;
            overwrite_channel known_flags VoiceChannel 3146752 2048]
           VoiceChannel).
  repeat constructor; try reflexivity; discriminate.
Defined.

Lemma has_flag_denied (everyone_perms : Z) (channel : Channel) (flag : Z) :
  (0 < flag)%Z →
  Z.land (deny_value channel) flag = flag →
  Z.land (allow_value channel) flag = 0%Z →
  has_flag (channel_perms everyone_perms channel) flag = false.
Proof.
  intros Hpos Hdeny Hallow. unfold has_flag. apply Z.eqb_neq. intros Heq.
  pose proof (Z.bit_log2 flag Hpos) as Hbit.
  apply (f_equal (λ z, Z.testbit z (Z.log2 flag))) in Heq, Hdeny, Hallow.
  rewrite Z.land_spec, Hbit, ?andb_true_r in Heq, Hdeny, Hallow.
  rewrite channel_perms_testbit, Hdeny, Hallow, Z.bits_0 in Heq.
  by rewrite andb_false_r in Heq.
Qed.

(** X18. A channel whose overwrite for everyone denies reading and does not
    allow it is counted as secret whatever the base permissions: when all
    channels are so, the secret count of every class is its total. *)
Theorem count_channels_denied (flags : PermissionFlags) (everyone_perms : Z)
    (channels : list Channel) (t : ChannelType) :
  (0 < read_messages flags)%Z →
  Forall (λ ch, Z.land (deny_value ch) (read_messages flags) = read_messages flags
                ∧ Z.land (allow_value ch) (read_messages flags) = 0%Z) channels →
  counter_get (count_channels flags everyone_perms channels).1 t =
  counter_get (count_channels flags everyone_perms channels).2 t.
Proof.
  intros Hpos Hall. unfold count_channels.
  destruct (count_channels_from flags everyone_perms channels ∅ ∅ t) as [-> ->].
  rewrite counter_get_empty. simpl.
  induction Hall as [|ch channels [Hdeny Hallow] Hall IH]; [done|].
  rewrite !count_if_cons, IH. unfold locked.
  rewrite (has_flag_denied _ _ _ Hpos Hdeny Hallow). simpl.
  by rewrite andb_true_r.
Qed.

Lemma count_channels_denied_witness :
  counter_get
    (count_channels discord_flags 1024
       [mkChannel TextChannel 0 1024; mkChannel VoiceChannel 1048576 1024]).1
    VoiceChannel =
  counter_get
    (count_channels discord_flags 1024
       [mkChannel TextChannel 0 1024; mkChannel VoiceChannel 1048576 1024]).2
    VoiceChannel.
Proof.
  apply (count_channels_denied discord_flags 1024
           [mkChannel TextChannel 0 1024; mkChannel VoiceChannel 1048576 1024]
           VoiceChannel).
  - reflexivity.
  - repeat constructor.
Defined.

(** ** info and serverinfo: the roles *)

Lemma at_guarded_without (s : list N) : AT_SIGN ∉ s → at_guarded s.
Proof.
  intros Hs k Hk. destruct Hs. by eapply list_elem_of_lookup_2.
Qed.

Lemma at_guarded_app (a b : list N) :
  at_guarded a → at_guarded b → at_guarded (a ++ b).
Proof.
  intros Ha Hb k Hk. destruct (decide (k < length a)) as [Hlt|Hge].
  - rewrite lookup_app_l in Hk by done.
    pose proof (Ha k Hk) as Hnext.
    rewrite lookup_app_l; [done|]. by eapply lookup_lt_Some.
  - rewrite lookup_app_r in Hk by lia.
    rewrite lookup_app_r by lia.
    replace (S k - length a) with (S (k - length a)) by lia. by apply Hb.
Qed.

Lemma at_guarded_replace (s : Py.str) :
  at_guarded (replace_char AT_SIGN [AT_SIGN; ZERO_WIDTH_SPACE] s).
Proof.
  induction s as [|c s IH]; [by intros k Hk|].
  change (replace_char AT_SIGN [AT_SIGN; ZERO_WIDTH_SPACE] (c :: s))
    with ((if decide (c = AT_SIGN) then [AT_SIGN; ZERO_WIDTH_SPACE] else [c]) ++
          replace_char AT_SIGN [AT_SIGN; ZERO_WIDTH_SPACE] s).
  apply at_guarded_app; [|done]. case_decide as Hc.
  - intros [|[|k]] Hk; simplify_eq/=; done.
  - apply at_guarded_without, not_elem_of_cons. split; [done | apply not_elem_of_nil].
Qed.

Lemma at_guarded_join (sep : Py.str) (parts : list Py.str) :
  at_guarded sep → Forall at_guarded parts → at_guarded (Py.join sep parts).
Proof.
  intros Hsep Hparts. induction Hparts as [|p parts Hp Hparts IH]; [by intros k Hk|].
  destruct parts as [|q parts]; [done|].
  change (Py.join sep (p :: q :: parts)) with (p ++ sep ++ Py.join sep (q :: parts)).
  by repeat apply at_guarded_app.
Qed.

Lemma uint_digits_without_at (d : Decimal.uint) : AT_SIGN ∉ Py.uint_digits d.
Proof.
  intros Hin. pose proof (uint_digits_digit d) as Hd.
  rewrite Forall_forall in Hd. specialize (Hd _ Hin).
  unfold is_digit, AT_SIGN in Hd. lia.
Qed.

(** X19. Whatever the names of the roles, every [@] in the value of the
    "Roles" field is followed by a zero width space; in particular the text
    [@everyone] does not occur in it. *)
Theorem roles_value_at_guarded (names : list Py.str) :
  at_guarded (roles_value (role_names names))
  ∧ Py.contains (roles_value (role_names names)) (Py.lit "@everyone") = false.
Proof.
  assert (at_guarded (roles_value (role_names names))) as Hguard.
  { unfold roles_value. case_decide.
    - apply at_guarded_join.
      + apply at_guarded_without, (bool_decide_unpack _). by vm_compute.
      + apply Forall_fmap, Forall_forall. intros name _. apply at_guarded_replace.
    - apply at_guarded_app.
      + apply at_guarded_without, uint_digits_without_at.
      + apply at_guarded_without, (bool_decide_unpack _). by vm_compute. }
  split; [done|].
  revert Hguard. generalize (roles_value (role_names names)). intros s Hs.
  induction s as [|c s IH]; [done|].
  cbn [Py.contains]. rewrite IH, orb_false_r.
  - destruct (Py.startswith (c :: s) (Py.lit "@everyone")) eqn:Hstart; [|done].
    apply startswith_inv in Hstart as [rest Heq].
    specialize (Hs 0). rewrite Heq in Hs. by specialize (Hs eq_refl).
  - intros k Hk. apply (Hs (S k) Hk).
Qed.

(** ** serverinfo: the emoji *)

Lemma stats_get_add (k t : Py.str) (n : nat) (c : gmap (list N) nat) :
  stats_get (stats_add k n c) t = stats_get c t + (if bool_decide (k = t) then n else 0).
Proof.
  unfold stats_get, stats_add. rewrite lookup_insert.
  case_bool_decide; case_decide; simplify_eq/=; rewrite ?Nat.add_0_r; done.
Qed.

Lemma count_emojis_from (emojis : list Emoji) (stats : gmap (list N) nat) :
  stats_get (foldl count_emoji stats emojis) (Py.lit "regular")
    = stats_get stats (Py.lit "regular") + count_if (λ e, negb (animated e)) emojis
  ∧ stats_get (foldl count_emoji stats emojis) (Py.lit "animated")
    = stats_get stats (Py.lit "animated") + count_if animated emojis
  ∧ stats_get (foldl count_emoji stats emojis) (Py.lit "disabled")
    = stats_get stats (Py.lit "disabled")
      + count_if (λ e, negb (animated e) && negb (available e)) emojis
  ∧ stats_get (foldl count_emoji stats emojis) (Py.lit "animated_disabled")
    = stats_get stats (Py.lit "animated_disabled")
      + count_if (λ e, animated e && negb (available e)) emojis.
Proof.
  revert stats. induction emojis as [|e emojis IH]; intros stats.
  - unfold count_if. simpl. lia.
  - cbn [foldl]. destruct (IH (count_emoji stats e)) as (-> & -> & -> & ->).
    rewrite !count_if_cons. unfold count_emoji.
    destruct (animated e), (available e); rewrite !stats_get_add;
      vm_compute bool_decide; simpl; lia.
Qed.

Lemma stats_get_empty (k : Py.str) : stats_get ∅ k = 0.
Proof. unfold stats_get. by rewrite lookup_empty. Qed.

(** X20. After the loop of [serverinfo] over the emoji, the four counters
    hold the numbers of emoji that are not animated, animated, not animated
    and unavailable, animated and unavailable; the first two add up to the
    number of emoji, and each disabled count is at most its kind's count. *)
Theorem count_emojis_counts (emojis : list Emoji) :
  let stats := count_emojis emojis in
  stats_get stats (Py.lit "regular") = count_if (λ e, negb (animated e)) emojis
  ∧ stats_get stats (Py.lit "animated") = count_if animated emojis
  ∧ stats_get stats (Py.lit "disabled")
    = count_if (λ e, negb (animated e) && negb (available e)) emojis
  ∧ stats_get stats (Py.lit "animated_disabled")
    = count_if (λ e, animated e && negb (available e)) emojis
  ∧ stats_get stats (Py.lit "regular") + stats_get stats (Py.lit "animated")
    = length emojis
  ∧ stats_get stats (Py.lit "disabled") ≤ stats_get stats (Py.lit "regular")
  ∧ stats_get stats (Py.lit "animated_disabled") ≤ stats_get stats (Py.lit "animated").
Proof.
  simpl. unfold count_emojis.
  destruct (count_emojis_from emojis ∅) as (-> & -> & -> & ->).
  rewrite !stats_get_empty. simpl.
  repeat split; try done.
  - induction emojis as [|e emojis IH]; [done|].
    rewrite !count_if_cons. simpl. destruct (animated e); simpl; lia.
  - apply count_if_le. by intros e [? _]%andb_prop.
  - apply count_if_le. by intros e [? _]%andb_prop.
Qed.

Lemma count_if_none {A} (p : A → bool) (l : list A) :
  Forall (λ x, p x = false) l → count_if p l = 0.
Proof.
  intros Hall. induction Hall as [|x l Hx Hall IH]; [done|].
  by rewrite count_if_cons, Hx, IH.
Qed.

(** X21. When every emoji is available, the value of the "Emoji" field has
    three lines, without a line of disabled emoji: the emoji that are not
    animated and the animated ones, each against the limit, and the total
    against twice the limit. *)
Theorem emoji_value_all_available (emojis : list Emoji) (emoji_limit : N) :
  Forall (λ e, available e = true) emojis →
  emoji_value emojis emoji_limit =
    Py.lit "Regular: " ++
    Py.str_of_int (N.of_nat (count_if (λ e, negb (animated e)) emojis)) ++
    Py.lit "/" ++ Py.str_of_int emoji_limit ++ [Py.NEWLINE] ++
    Py.lit "Animated: " ++ Py.str_of_int (N.of_nat (count_if animated emojis)) ++
    Py.lit "/" ++ Py.str_of_int emoji_limit ++ [Py.NEWLINE] ++
    Py.lit "Total Emoji: " ++ Py.str_of_int (N.of_nat (length emojis)) ++
    Py.lit "/" ++ Py.str_of_int (emoji_limit * 2).
Proof.
  intros Hall. unfold emoji_value, count_emojis. cbv zeta.
  destruct (count_emojis_from emojis ∅) as (-> & -> & -> & ->).
  rewrite !stats_get_empty, !Nat.add_0_l.
  rewrite !(count_if_none (λ e, _ && negb (available e))).
  - rewrite !(bool_decide_eq_false_2 (0 ≠ 0)) by (intros H; by apply H).
    cbn [orb]. by rewrite <- !app_assoc.
  - eapply Forall_impl; [exact Hall|]. intros e He. simpl in *.
    by rewrite He, andb_false_r.
  - eapply Forall_impl; [exact Hall|]. intros e He. simpl in *.
    by rewrite He, andb_false_r.
Qed.

Lemma emoji_value_all_available_witness :
  emoji_value [mkEmoji true true; mkEmoji false true; mkEmoji false true] 50 =
    Py.lit "Regular: " ++
    Py.str_of_int (N.of_nat (count_if (λ e, negb (animated e))
      [mkEmoji true true; mkEmoji false true; mkEmoji false true])) ++
    Py.lit "/" ++ Py.str_of_int 50 ++ [Py.NEWLINE] ++
    Py.lit "Animated: " ++ Py.str_of_int (N.of_nat (count_if animated
      [mkEmoji true true; mkEmoji false true; mkEmoji false true])) ++
    Py.lit "/" ++ Py.str_of_int 50 ++ [Py.NEWLINE] ++
    Py.lit "Total Emoji: " ++ Py.str_of_int (N.of_nat (length
      [mkEmoji true true; mkEmoji false true; mkEmoji false true])) ++
    Py.lit "/" ++ Py.str_of_int (50 * 2).
Proof.
  apply (emoji_value_all_available
           [mkEmoji true true; mkEmoji false true; mkEmoji false true] 50).
  repeat constructor.
Defined.

(** ** say_permissions *)

Lemma sort_permissions_from (title_case : Py.str → Py.str)
    (permissions : list (Py.str * bool)) (allowed denied : list Py.str) :
  foldl (sort_permission title_case) (allowed, denied) permissions =
  (allowed ++ (permission_label title_case <$>
                 (filter (λ p, p.2 = true) permissions).*1),
   denied ++ (permission_label title_case <$>
                (filter (λ p, p.2 = false) permissions).*1)).
Proof.
  revert allowed denied.
  induction permissions as [|[name value] permissions IH]; intros allowed denied.
  - by rewrite !app_nil_r.
  - cbn [foldl sort_permission]. rewrite !filter_cons. simpl.
    destruct value; rewrite IH.
    + rewrite decide_True, decide_False by done. simpl. by rewrite <- app_assoc.
    + rewrite decide_False, decide_True by done. simpl. by rewrite <- app_assoc.
Qed.

(** X22. The embed of [say_permissions] has the two fields "Allowed" and
    "Denied": the labels of the permissions that are set and of those that
    are not, each in the order in which the permissions come, one per line.
    Every permission is in exactly one of the two lists. *)
Theorem say_permissions_partition (title_case : Py.str → Py.str) (member : Member)
    (permissions : list (Py.str * bool)) :
  let allowed :=
    permission_label title_case <$> (filter (λ p, p.2 = true) permissions).*1 in
  let denied :=
    permission_label title_case <$> (filter (λ p, p.2 = false) permissions).*1 in
  fields (say_permissions title_case member permissions) =
    [(Py.lit "Allowed", Py.join [Py.NEWLINE] allowed);
     (Py.lit "Denied", Py.join [Py.NEWLINE] denied)]
  ∧ length allowed + length denied = length permissions
  ∧ allowed ++ denied ≡ₚ permission_label title_case <$> permissions.*1.
Proof.
  intros allowed denied. unfold say_permissions.
  rewrite sort_permissions_from. simpl. split; [done|].
  assert (allowed ++ denied ≡ₚ permission_label title_case <$> permissions.*1) as Hperm.
  { subst allowed denied. rewrite <- !fmap_app.
    rewrite (list_filter_iff (λ p, p.2 = false) (λ p, ¬ p.2 = true))
      by (by intros [name []]; simpl; split; try done; intros []).
    by rewrite filter_app_complement. }
  split; [|done].
  rewrite <- length_app, Hperm. by rewrite !length_fmap.
Qed.

(** ** msgraw *)

Lemma HTTPException_no_CommandError (e : Exn) :
  isinstance e HTTPException = true → isinstance e CommandError = false.
Proof. by destruct e as [[] ?]. Qed.

(** X23. [msgraw] for a message that the platform does not find: the cog
    sends one message, which names the message id and the channel, and
    [mgsr_error] adds nothing. *)
Theorem raw_message_not_found {Payload : Type} (get_message : Z → Exn + Payload)
    (dumped : Payload → Py.str) (channel_mention : Py.str)
    (send_refused : Py.str → option Exn) (message_id : Z) (w : World) (err : Exn) :
  get_message message_id = inl err →
  isinstance err NotFound = true →
  let text := Py.lit "Message with the ID of " ++ str_of_Z message_id ++
              Py.lit " cannot be found in " ++ channel_mention ++ Py.lit "." in
  invoke_raw_message get_message dumped channel_mention send_refused message_id w =
    (Raise (mkExn BadArgument text), mkWorld (stored w) (log w ++ [Send text])).
Proof.
  intros Hget Hnf text. unfold invoke_raw_message, raw_message.
  by rewrite Hget, Hnf.
Qed.

Lemma raw_message_not_found_witness :
  let text := Py.lit "Message with the ID of " ++ str_of_Z 7 ++
              Py.lit " cannot be found in " ++ Py.lit "<#1>" ++ Py.lit "." in
  invoke_raw_message (Payload := Py.str)
    (λ _, inl (mkExn NotFound (Py.lit "404 Not Found (error code: 10008): Unknown Message")))
    (λ m, m) (Py.lit "<#1>") (λ _, None) 7 (mkWorld [] []) =
    (Raise (mkExn BadArgument text), mkWorld [] ([] ++ [Send text])).
Proof.
  apply (raw_message_not_found (Payload := Py.str)
           (λ _, inl (mkExn NotFound
                        (Py.lit "404 Not Found (error code: 10008): Unknown Message")))
           (λ m, m) (Py.lit "<#1>") (λ _, None) 7 (mkWorld [] [])
           (mkExn NotFound (Py.lit "404 Not Found (error code: 10008): Unknown Message")));
    reflexivity.
Defined.

(** X24. [msgraw] for a message whose dump the platform refuses with an
    [HTTPException]: after the refused message the cog sends "The specified
    message's content is too long to repeat." (when that one is accepted),
    and nothing else. *)
Theorem raw_message_too_long {Payload : Type} (get_message : Z → Exn + Payload)
    (dumped : Payload → Py.str) (channel_mention : Py.str)
    (send_refused : Py.str → option Exn) (message_id : Z) (w : World)
    (msg : Payload) (err : Exn) :
  get_message message_id = inr msg →
  let dump := Py.lit "```json" ++ [Py.NEWLINE] ++ dumped msg ++ [Py.NEWLINE] ++
              Py.lit "```" in
  let notice := Py.lit "The specified message's content is too long to repeat." in
  send_refused dump = Some err →
  isinstance err HTTPException = true →
  send_refused notice = None →
  ∃ e, invoke_raw_message get_message dumped channel_mention send_refused
         message_id w =
       (Raise e, mkWorld (stored w) (log w ++ [Send dump; Send notice]))
       ∧ exn_class e = CommandInvokeError.
Proof.
  intros Hget dump notice Hrefused Hhttp Hnotice. subst dump notice.
  unfold invoke_raw_message, raw_message. rewrite Hget.
  cbv beta iota delta [ctx_send_checked bind emit ret raise]. rewrite Hrefused.
  unfold callback_failure. rewrite (HTTPException_no_CommandError _ Hhttp).
  cbv beta iota delta [mgsr_error failure_error failure_original default].
  cbv beta iota zeta delta [from_option id]. rewrite Hhttp.
  cbv beta iota delta [ctx_send_checked bind emit ret raise stored log].
  rewrite Hnotice.
  eexists. split.
  - unfold cog_command_error. cbn. by rewrite <- app_assoc.
  - reflexivity.
Qed.

Lemma raw_message_too_long_witness :
  let dump := Py.lit "```json" ++ [Py.NEWLINE] ++ Py.lit "{}" ++ [Py.NEWLINE] ++
              Py.lit "```" in
  let notice := Py.lit "The specified message's content is too long to repeat." in
  ∃ e, invoke_raw_message (Payload := Py.str) (λ _, inr (Py.lit "{}")) (λ m, m)
         (Py.lit "<#1>")
         (λ content, if bool_decide (length content < 20) then
                       Some (mkExn HTTPException (Py.lit "400 Bad Request"))
                     else None)
         7 (mkWorld [] []) =
       (Raise e, mkWorld [] ([] ++ [Send dump; Send notice]))
       ∧ exn_class e = CommandInvokeError.
Proof.
  apply (raw_message_too_long (Payload := Py.str) (λ _, inr (Py.lit "{}")) (λ m, m)
           (Py.lit "<#1>")
           (λ content, if bool_decide (length content < 20) then
                         Some (mkExn HTTPException (Py.lit "400 Bad Request"))
                       else None)
           7 (mkWorld [] []) (Py.lit "{}")
           (mkExn HTTPException (Py.lit "400 Bad Request")));
    reflexivity.
Defined.

(** X25. [msgraw] when fetching the message fails with an [HTTPException]
    other than [NotFound]: nothing of the message is sent, and the cog
    answers with "The specified message's content is too long to repeat."
    (when that message is accepted), whatever the failure was. *)
Theorem raw_message_fetch_failed {Payload : Type} (get_message : Z → Exn + Payload)
    (dumped : Payload → Py.str) (channel_mention : Py.str)
    (send_refused : Py.str → option Exn) (message_id : Z) (w : World) (err : Exn) :
  get_message message_id = inl err →
  isinstance err NotFound = false →
  isinstance err HTTPException = true →
  let notice := Py.lit "The specified message's content is too long to repeat." in
  send_refused notice = None →
  ∃ e, invoke_raw_message get_message dumped channel_mention send_refused
         message_id w =
       (Raise e, mkWorld (stored w) (log w ++ [Send notice]))
       ∧ exn_class e = CommandInvokeError.
Proof.
  intros Hget Hnf Hhttp notice Hnotice. subst notice.
  unfold invoke_raw_message, raw_message. rewrite Hget, Hnf.
  cbv beta iota delta [raise].
  unfold callback_failure. rewrite (HTTPException_no_CommandError _ Hhttp).
  cbv beta iota delta [mgsr_error failure_error failure_original default].
  cbv beta iota zeta delta [from_option id]. rewrite Hhttp.
  cbv beta iota delta [ctx_send_checked bind emit ret raise stored log].
  rewrite Hnotice.
  eexists. split.
  - unfold cog_command_error. by cbn.
  - reflexivity.
Qed.

Lemma raw_message_fetch_failed_witness :
  let notice := Py.lit "The specified message's content is too long to repeat." in
  ∃ e, invoke_raw_message (Payload := Py.str)
         (λ _, inl (mkExn HTTPException (Py.lit "403 Forbidden")))
         (λ m, m) (Py.lit "<#1>") (λ _, None) 7 (mkWorld [] []) =
       (Raise e, mkWorld [] ([] ++ [Send notice]))
       ∧ exn_class e = CommandInvokeError.
Proof.
  apply (raw_message_fetch_failed (Payload := Py.str)
           (λ _, inl (mkExn HTTPException (Py.lit "403 Forbidden")))
           (λ m, m) (Py.lit "<#1>") (λ _, None) 7 (mkWorld [] [])
           (mkExn HTTPException (Py.lit "403 Forbidden")));
    reflexivity.
Defined.

(** ** charinfo: the lines of the message *)









